(** * Supabase "Send SMS" hook for Authentica.sa: a shallow embedding of
    [index.ts] and the properties of its routing and delivery pipeline.

    JavaScript strings are sequences of UTF-16 code units, module-level
    [const] bindings are fields of a [Config] record, the built-ins the source
    calls on strings ([trim], [split], [startsWith], [replace]) are written out
    on code-unit lists, and the asynchronous handler is a computation in a
    small state-and-exception monad whose state is the log of provider calls.
    What the platform and the webhook library answer ([JSON.parse],
    [parseInt], the verifier, [fetch]) is a [Runtime] the pipeline is
    parametrized by. Console output does not influence control flow and is
    left out. *)

From Stdlib Require Import List NArith ZArith Bool Lia String Ascii.
From Stdlib Require Import Floats.SpecFloat.
Import ListNotations.

(** ** JavaScript strings *)

Module JsStr.

Definition CodeUnit := N.
Definition JsString := list CodeUnit.

(** An ASCII literal of the source as a code-unit sequence. *)
Definition lit (s : string) : JsString :=
  List.map N_of_ascii (list_ascii_of_string s).

Definition eqb (a b : JsString) : bool :=
  if list_eq_dec N.eq_dec a b then true else false.

Local Open Scope N_scope.

(** ECMAScript WhiteSpace and LineTerminator code points: what
    [String.prototype.trim] strips and what the regular-expression class [\s]
    matches. *)
Definition isWhiteSpace (c : CodeUnit) : bool :=
  (c =? 0x09) || (c =? 0x0A) || (c =? 0x0B) || (c =? 0x0C) || (c =? 0x0D)
  || (c =? 0x20) || (c =? 0xA0) || (c =? 0x1680)
  || ((0x2000 <=? c) && (c <=? 0x200A))
  || (c =? 0x2028) || (c =? 0x2029) || (c =? 0x202F) || (c =? 0x205F)
  || (c =? 0x3000) || (c =? 0xFEFF).

Definition HYPHEN : CodeUnit := 0x2D.
Definition PLUS : CodeUnit := 0x2B.
Definition COMMA : CodeUnit := 0x2C.

(** [s.startsWith(search)] *)
Fixpoint startsWith (s search : JsString) {struct search} : bool :=
  match search, s with
  | [], _ => true
  | _ :: _, [] => false
  | p :: search', c :: s' => (c =? p) && startsWith s' search'
  end.

(** [s.trimStart()], [s.trimEnd()] and [s.trim()] *)
Fixpoint trimStart (s : JsString) : JsString :=
  match s with
  | [] => []
  | c :: s' => if isWhiteSpace c then trimStart s' else s
  end.

Definition trimEnd (s : JsString) : JsString := rev (trimStart (rev s)).

Definition trim (s : JsString) : JsString := trimEnd (trimStart s).

(** [s.split(sep)] for a separator of one code unit: never an empty array,
    the empty string splits into one empty piece. *)
Fixpoint split (sep : CodeUnit) (s : JsString) : list JsString :=
  match s with
  | [] => [[]]
  | c :: s' =>
      if c =? sep then [] :: split sep s'
      else match split sep s' with
           | [] => [[c]]
           | piece :: pieces => (c :: piece) :: pieces
           end
  end.

(** [s.replace(/[class]/g, replacement)]: every code unit of the class is
    replaced, left to right; the replacement holds no [$] pattern. *)
Fixpoint replaceClassAll (class : CodeUnit -> bool) (replacement s : JsString)
  : JsString :=
  match s with
  | [] => []
  | c :: s' =>
      if class c then replacement ++ replaceClassAll class replacement s'
      else c :: replaceClassAll class replacement s'
  end.

(** [s.replace(pattern, replacement)] with a string pattern: only the first
    occurrence of [pattern], wherever it starts, is replaced (the replacement
    holds no [$] pattern). *)
Fixpoint replaceFirst (pattern replacement s : JsString) : JsString :=
  if startsWith s pattern then replacement ++ skipn (List.length pattern) s
  else match s with
       | [] => []
       | c :: s' => c :: replaceFirst pattern replacement s'
       end.

(** [String(n)] for a non-negative integer. *)
Fixpoint digits (d : Decimal.uint) : JsString :=
  match d with
  | Decimal.Nil => []
  | Decimal.D0 d' => 0x30 :: digits d'
  | Decimal.D1 d' => 0x31 :: digits d'
  | Decimal.D2 d' => 0x32 :: digits d'
  | Decimal.D3 d' => 0x33 :: digits d'
  | Decimal.D4 d' => 0x34 :: digits d'
  | Decimal.D5 d' => 0x35 :: digits d'
  | Decimal.D6 d' => 0x36 :: digits d'
  | Decimal.D7 d' => 0x37 :: digits d'
  | Decimal.D8 d' => 0x38 :: digits d'
  | Decimal.D9 d' => 0x39 :: digits d'
  end.

Definition ofN (n : N) : JsString := digits (N.to_uint n).

End JsStr.

Import JsStr.

Arguments lit s%_string : simpl never.

(** ** Module-level configuration (index.ts, lines 26-38) *)

(** [Deno.env.get]: a variable is a string or is not set. *)
Definition Env := JsString -> option JsString.

(** [x || fallback] for an [x] that is a string or [undefined]. *)
Definition orElse (x : option JsString) (fallback : JsString) : JsString :=
  match x with
  | Some ((_ :: _) as s) => s
  | _ => fallback
  end.

Record Config := {
  AUTHENTICA_API_KEY : option JsString;
  AUTHENTICA_SMS_TEMPLATE_ID : JsString;
  AUTHENTICA_WHATSAPP_TEMPLATE_ID : JsString;
  FALLBACK_EMAIL : JsString;
  HOOK_SECRET : option JsString;
  SMS_COUNTRY_CODES : JsString
}.

Definition loadConfig (env : Env) : Config := {|
  AUTHENTICA_API_KEY := env (lit "AUTHENTICA_API_KEY");
  AUTHENTICA_SMS_TEMPLATE_ID :=
    orElse (env (lit "AUTHENTICA_SMS_TEMPLATE_ID"))
           (orElse (env (lit "AUTHENTICA_TEMPLATE_ID")) (lit "31"));
  AUTHENTICA_WHATSAPP_TEMPLATE_ID :=
    orElse (env (lit "AUTHENTICA_WHATSAPP_TEMPLATE_ID")) [];
  FALLBACK_EMAIL :=
    orElse (env (lit "FALLBACK_EMAIL")) (lit "noreply@yourdomain.com");
  HOOK_SECRET := env (lit "SEND_SMS_HOOK_SECRET");
  SMS_COUNTRY_CODES := orElse (env (lit "SMS_COUNTRY_CODES")) []
|}.

(** Truthiness of a string ([!s] is its negation) and of a binding that may
    be [undefined]. *)
Definition nonEmpty (s : JsString) : bool :=
  match s with [] => false | _ :: _ => true end.

Definition isSet (x : option JsString) : bool :=
  match x with Some s => nonEmpty s | None => false end.

(** ** The channel router (index.ts, lines 46-84) *)

Definition getSmsCountryCodes (cfg : Config) : list JsString :=
  filter (fun code => (1 <? List.length code)%nat)
    (List.map (fun code => if startsWith code (lit "+") then code
                           else lit "+" ++ code)
       (List.map (fun code => trim code)
          (split COMMA (SMS_COUNTRY_CODES cfg)))).

Definition isSpaceOrDash (c : CodeUnit) : bool :=
  isWhiteSpace c || (c =? HYPHEN)%N.

Definition shouldUseSMS (cfg : Config) (phone : JsString) : bool :=
  if negb (nonEmpty (AUTHENTICA_WHATSAPP_TEMPLATE_ID cfg)) then true
  else
    let smsCountryCodes := getSmsCountryCodes cfg in
    if (List.length smsCountryCodes =? 0)%nat then true
    else
      let normalized := replaceClassAll isSpaceOrDash [] phone in
      let normalized :=
        if negb (startsWith normalized (lit "+")) then lit "+" ++ normalized
        else normalized in
      existsb (fun code => startsWith normalized code) smsCountryCodes.

(** ** JavaScript values, errors and completions *)

(** The values [JSON.parse] produces, with [undefined] for an absent
    property. A number is an IEEE 754 binary64 value. *)
#[warnings="-register-all"]
Inductive JsValue :=
| JUndefined
| JNull
| JBool (b : bool)
| JNumber (x : spec_float)
| JStr (s : JsString)
| JArray (items : list JsValue)
| JObject (props : list (JsString * JsValue)).

(** ToBoolean: [undefined], [null], [false], [0], [-0], [NaN] and the empty
    string are falsy, every other value (objects and arrays included) is
    truthy. *)
Definition toBoolean (v : JsValue) : bool :=
  match v with
  | JUndefined | JNull => false
  | JBool b => b
  | JNumber (S754_zero _) | JNumber S754_nan => false
  | JNumber _ => true
  | JStr s => nonEmpty s
  | JArray _ | JObject _ => true
  end.

(** [a || b] *)
Definition jsOr (a b : JsValue) : JsValue := if toBoolean a then a else b.

Fixpoint lookupOwn (key : JsString) (props : list (JsString * JsValue))
  : JsValue :=
  match props with
  | [] => JUndefined
  | (k, v) :: rest => if JsStr.eqb k key then v else lookupOwn key rest
  end.

(** [v?.key] for the property names the handler reads ([user], [phone],
    [new_phone], [sms], [otp]): [undefined] on [undefined] and [null] by the
    optional chain, the own property of a parsed object, and [undefined] on
    primitives and arrays, which carry no property of these names. *)
Definition optGet (v : JsValue) (key : JsString) : JsValue :=
  match v with
  | JObject props => lookupOwn key props
  | _ => JUndefined
  end.

Record JsError := { errName : JsString; errMessage : JsString }.

(** How an expression completes: with a value, or by throwing. *)
Inductive Completion (A : Type) :=
| Normal (a : A)
| Abrupt (e : JsError).

Arguments Normal {A} a.
Arguments Abrupt {A} e.

(** ** The world outside the function *)

Definition Headers := list (JsString * JsString).

(** The argument of [fetch]; [fetchBody] is the value handed to
    [JSON.stringify]. *)
Record FetchRequest := {
  fetchUrl : JsString;
  fetchMethod : JsString;
  fetchHeaders : Headers;
  fetchBody : JsValue
}.

(** What [fetch] resolves to: the status, and how reading the body with
    [response.text()] completes. *)
Record FetchResponse := {
  status : N;
  text : Completion JsString
}.

(** [response.ok] *)
Definition ok (r : FetchResponse) : bool :=
  ((200 <=? status r) && (status r <=? 299))%N.

(** The platform and library calls the source makes: [JSON.parse],
    [parseInt], the Standard Webhooks verifier ([new Webhook(secret)] followed
    by [verify(payload, headers)]) and [fetch]. *)
Record Runtime := {
  JSON_parse : JsString -> Completion JsValue;
  parseInt : JsString -> spec_float;
  Webhook_verify : JsString -> JsString -> Headers -> Completion JsValue;
  fetch : FetchRequest -> Completion FetchResponse
}.

(** ** Computations: provider-call log and exceptions *)

(** The requests sent to the provider so far, oldest first. *)
Definition World := list FetchRequest.

Definition M (A : Type) := World -> Completion A * World.

Definition ret {A} (a : A) : M A := fun w => (Normal a, w).

Definition throw {A} (e : JsError) : M A := fun w => (Abrupt e, w).

Definition bind {A B} (m : M A) (k : A -> M B) : M B :=
  fun w =>
    match m w with
    | (Normal a, w') => k a w'
    | (Abrupt e, w') => (Abrupt e, w')
    end.

(** [try { m } catch (e) { handler e }] *)
Definition tryCatch {A} (m : M A) (handler : JsError -> M A) : M A :=
  fun w =>
    match m w with
    | (Normal a, w') => (Normal a, w')
    | (Abrupt e, w') => handler e w'
    end.

Definition complete {A} (c : Completion A) : M A := fun w => (c, w).

Definition await_fetch (rt : Runtime) (request : FetchRequest)
  : M FetchResponse :=
  fun w => (fetch rt request, w ++ [request]).

Notation "x <- m ;; k" := (bind m (fun x => k))
  (at level 61, m at next level, right associativity).

(** ** The delivery client (index.ts, lines 93-168) *)

Record SendResult := {
  success : bool;
  error : option JsString;
  data : option JsValue
}.

Record Request := {
  method : JsString;
  headers : Headers;
  body : Completion JsString
}.

(** [new Response(JSON.stringify(responseJson), { status, headers })] *)
Record Response := {
  responseStatus : N;
  responseHeaders : Headers;
  responseJson : JsValue
}.

Section Pipeline.

Variable rt : Runtime.
Variable cfg : Config.

(** The argument of the [fetch] call of lines 114-128. *)
Definition otpRequest (apiKey deliveryMethod phone templateId : JsString)
    (otp : JsValue) : FetchRequest := {|
  fetchUrl := lit "https://api.authentica.sa/api/v2/send-otp";
  fetchMethod := lit "POST";
  fetchHeaders :=
    [(lit "Accept", lit "application/json");
     (lit "X-Authorization", apiKey);
     (lit "Content-Type", lit "application/json")];
  fetchBody :=
    JObject
      [(lit "method", JStr deliveryMethod);
       (lit "phone", JStr phone);
       (lit "template_id", JNumber (parseInt rt templateId));
       (lit "fallback_email", JStr (FALLBACK_EMAIL cfg));
       (lit "otp", otp)]
|}.

(** [phone] is a string at the only call site: the handler has called
    [startsWith] on it. *)
Definition sendSMS (phone : JsString) (otp : JsValue) : M SendResult :=
  match AUTHENTICA_API_KEY cfg with
  | None | Some [] =>
      ret {| success := false;
             error := Some (lit "SMS service not configured");
             data := None |}
  | Some apiKey =>
      tryCatch
        (let useSMS := shouldUseSMS cfg phone in
         let deliveryMethod := if useSMS then lit "sms" else lit "whatsapp" in
         let templateId :=
           if useSMS then AUTHENTICA_SMS_TEMPLATE_ID cfg
           else AUTHENTICA_WHATSAPP_TEMPLATE_ID cfg in
         response <-
           await_fetch rt
             (otpRequest apiKey deliveryMethod phone templateId otp) ;;
         responseText <- complete (text response) ;;
         let data :=
           match JSON_parse rt responseText with
           | Normal parsed => parsed
           | Abrupt _ => JStr responseText
           end in
         if negb (ok response) then
           ret {| success := false;
                  error := Some (lit "Authentica API error: "
                                 ++ ofN (status response));
                  data := Some data |}
         else
           ret {| success := true; error := None; data := Some data |})
        (fun _ =>
           ret {| success := false;
                  error := Some (lit "Failed to send SMS");
                  data := None |})
  end.

(** ** The request handler (index.ts, lines 181-330) *)

Definition jsonResponse (code : N) (json : JsValue) : Response := {|
  responseStatus := code;
  responseHeaders := [(lit "Content-Type", lit "application/json")];
  responseJson := json
|}.

Definition failure (code message : JsString) : JsValue :=
  JObject [(lit "code", JStr code); (lit "message", JStr message)].

Definition notAFunction : JsError := {|
  errName := lit "TypeError";
  errMessage := lit "formattedPhone.startsWith is not a function"
|}.

(** Lines 209-233: the event, verified when a secret is configured and
    parsed from the raw payload otherwise or when verification throws. *)
Definition readEvent (req : Request) (payload : JsString) : M JsValue :=
  match HOOK_SECRET cfg with
  | None | Some [] => complete (JSON_parse rt payload)
  | Some hookSecret =>
      tryCatch
        (let secret := replaceFirst (lit "v1,whsec_") [] hookSecret in
         complete (Webhook_verify rt secret payload (headers req)))
        (fun _ => complete (JSON_parse rt payload))
  end.

(** Lines 239-240: [event?.user?.phone || event?.user?.new_phone] and
    [event?.sms?.otp]. *)
Definition eventPhone (event : JsValue) : JsValue :=
  jsOr (optGet (optGet event (lit "user")) (lit "phone"))
       (optGet (optGet event (lit "user")) (lit "new_phone")).

Definition eventOtp (event : JsValue) : JsValue :=
  optGet (optGet event (lit "sms")) (lit "otp").

(** Lines 235-312: everything after the event is known. *)
Definition deliver (event : JsValue) : M Response :=
  let phone := eventPhone event in
  let otp := eventOtp event in
  if negb (toBoolean phone) then
    ret (jsonResponse 400
           (failure (lit "invalid_payload") (lit "Missing phone number")))
  else if negb (toBoolean otp) then
    ret (jsonResponse 400
           (failure (lit "invalid_payload") (lit "Missing OTP")))
  else
    formattedPhone <-
      match phone with
      | JStr s => ret (if negb (startsWith s (lit "+")) then lit "+" ++ s
                       else s)
      | _ => throw notAFunction
      end ;;
    result <- sendSMS formattedPhone otp ;;
    if negb (success result) then
      ret (jsonResponse 500
             (failure (lit "sms_send_failure")
                (orElse (error result) (lit "Failed to send SMS"))))
    else
      ret (jsonResponse 200 (JObject [(lit "success", JBool true)])).

(** Lines 314-329: the outermost [catch]. *)
Definition unexpectedFailure (error : JsError) : M Response :=
  ret (jsonResponse 500
         (failure (lit "unexpected_failure")
            (orElse (Some (errMessage error))
               (lit "Internal server error")))).

Definition handler (req : Request) : M Response :=
  if negb (JsStr.eqb (method req) (lit "POST")) then
    ret (jsonResponse 405
           (failure (lit "method_not_allowed")
              (lit "Only POST method is allowed")))
  else
    tryCatch
      (payload <- complete (body req) ;;
       event <- readEvent req payload ;;
       deliver event)
      unexpectedFailure.

End Pipeline.

(** ** The statements the properties are measured against *)

Module Spec.

Definition IsPrefix (p s : JsString) : Prop := exists rest, s = p ++ rest.

Definition Blank (s : JsString) : Prop :=
  Forall (fun c => isWhiteSpace c = true) s.

(** Neither the first nor the last code unit is white space. *)
Definition EdgeFree (t : JsString) : Prop :=
  (forall c t', t = c :: t' -> isWhiteSpace c = false) /\
  (forall c t', t = t' ++ [c] -> isWhiteSpace c = false).

(** [TrimOf s t]: [t] is [s] without its leading and trailing white space. *)
Inductive TrimOf : JsString -> JsString -> Prop :=
| TrimOf_intro l t r :
    Blank l -> Blank r -> EdgeFree t -> TrimOf (l ++ t ++ r) t.

Fixpoint join (sep : CodeUnit) (parts : list JsString) : JsString :=
  match parts with
  | [] => []
  | [p] => p
  | p :: rest => p ++ sep :: join sep rest
  end.

(** [EntriesOf s entries]: [entries] are the comma-separated entries of [s]. *)
Definition EntriesOf (s : JsString) (entries : list JsString) : Prop :=
  entries <> [] /\
  Forall (fun e => ~ In COMMA e) entries /\
  join COMMA entries = s.

(** A leading [+] is prepended when absent. *)
Definition withPlus (t : JsString) : JsString :=
  match t with
  | c :: _ => if (c =? PLUS)%N then t else PLUS :: t
  | [] => [PLUS]
  end.

(** The allow-list of a prefix string: every entry trimmed and given its
    [+], entries of length at most one dropped. *)
Definition AllowListOf (s : JsString) (allow : list JsString) : Prop :=
  exists entries trimmed,
    EntriesOf s entries /\
    Forall2 TrimOf entries trimmed /\
    allow = filter (fun p => negb (List.length p <=? 1)%nat)
              (List.map withPlus trimmed).

(** The phone with all white space and hyphens removed and a leading [+]. *)
Definition normalPhone (phone : JsString) : JsString :=
  withPlus
    (filter (fun c => negb (isWhiteSpace c) && negb (c =? HYPHEN)%N) phone).

Inductive DeliveryChannel := SMS | AlternateChannel.

(** The routing algorithm, rule by rule. *)
Inductive Routing (cfg : Config) (phone : JsString)
  : DeliveryChannel -> Prop :=
| Route_unconfigured :
    AUTHENTICA_WHATSAPP_TEMPLATE_ID cfg = [] ->
    Routing cfg phone SMS
| Route_everyone allow :
    AUTHENTICA_WHATSAPP_TEMPLATE_ID cfg <> [] ->
    AllowListOf (SMS_COUNTRY_CODES cfg) allow ->
    allow = [] ->
    Routing cfg phone SMS
| Route_listed allow prefix :
    AUTHENTICA_WHATSAPP_TEMPLATE_ID cfg <> [] ->
    AllowListOf (SMS_COUNTRY_CODES cfg) allow ->
    In prefix allow ->
    IsPrefix prefix (normalPhone phone) ->
    Routing cfg phone SMS
| Route_unlisted allow :
    AUTHENTICA_WHATSAPP_TEMPLATE_ID cfg <> [] ->
    AllowListOf (SMS_COUNTRY_CODES cfg) allow ->
    allow <> [] ->
    (forall prefix, In prefix allow -> ~ IsPrefix prefix (normalPhone phone)) ->
    Routing cfg phone AlternateChannel.

(** The channel a routing decision of the source stands for (the delivery
    method [sendSMS] derives from it). *)
Definition channelOf (useSMS : bool) : DeliveryChannel :=
  if useSMS then SMS else AlternateChannel.

(** The secret with the known prefix removed when the secret starts with
    it, and unchanged otherwise. *)
Definition stripLeading (prefix secret : JsString) : JsString :=
  if startsWith secret prefix then skipn (List.length prefix) secret
  else secret.

(** A field of the event that is missing or empty: absent, [null], or the
    empty string. *)
Definition MissingOrEmpty (v : JsValue) : Prop :=
  v = JUndefined \/ v = JNull \/ v = JStr [].

(** A field of the event that is present: a string that is not empty. *)
Definition Present (v : JsValue) : Prop :=
  exists c s, v = JStr (c :: s).

End Spec.

(** The configuration with signature verification switched off. *)
Definition withoutSecret (cfg : Config) : Config := {|
  AUTHENTICA_API_KEY := AUTHENTICA_API_KEY cfg;
  AUTHENTICA_SMS_TEMPLATE_ID := AUTHENTICA_SMS_TEMPLATE_ID cfg;
  AUTHENTICA_WHATSAPP_TEMPLATE_ID := AUTHENTICA_WHATSAPP_TEMPLATE_ID cfg;
  FALLBACK_EMAIL := FALLBACK_EMAIL cfg;
  HOOK_SECRET := None;
  SMS_COUNTRY_CODES := SMS_COUNTRY_CODES cfg
|}.

(** The secret the verifier of line 219 is constructed with. *)
Definition verifierSecret (hookSecret : JsString) : JsString :=
  replaceFirst (lit "v1,whsec_") [] hookSecret.

(** ** Named results and requests of the delivery client *)

Definition failedToSend : SendResult :=
  {| success := false;
     error := Some (lit "Failed to send SMS");
     data := None |}.

Definition notConfigured : SendResult :=
  {| success := false;
     error := Some (lit "SMS service not configured");
     data := None |}.

(** The request [sendSMS] issues for a phone and an OTP under an API key. *)
Definition requestOf (rt : Runtime) (cfg : Config) (apiKey phone : JsString)
    (otp : JsValue) : FetchRequest :=
  otpRequest rt cfg apiKey
    (if shouldUseSMS cfg phone then lit "sms" else lit "whatsapp")
    phone
    (if shouldUseSMS cfg phone then AUTHENTICA_SMS_TEMPLATE_ID cfg
     else AUTHENTICA_WHATSAPP_TEMPLATE_ID cfg)
    otp.

(** ** Concrete requests, events and runtimes *)

Module Sample.

Definition quoted (s : JsString) : JsString := 34%N :: s ++ [34%N].

Definition config : Config := {|
  AUTHENTICA_API_KEY := Some (lit "test-api-key");
  AUTHENTICA_SMS_TEMPLATE_ID := lit "31";
  AUTHENTICA_WHATSAPP_TEMPLATE_ID := lit "42";
  FALLBACK_EMAIL := lit "noreply@yourdomain.com";
  HOOK_SECRET := Some (lit "v1,whsec_c2VjcmV0");
  SMS_COUNTRY_CODES := lit "+966"
|}.

(** The same deployment with no API key, and with no webhook secret. *)
Definition keyless : Config := {|
  AUTHENTICA_API_KEY := None;
  AUTHENTICA_SMS_TEMPLATE_ID := lit "31";
  AUTHENTICA_WHATSAPP_TEMPLATE_ID := lit "42";
  FALLBACK_EMAIL := lit "noreply@yourdomain.com";
  HOOK_SECRET := Some (lit "v1,whsec_c2VjcmV0");
  SMS_COUNTRY_CODES := lit "+966"
|}.

Definition unsigned : Config := {|
  AUTHENTICA_API_KEY := Some (lit "test-api-key");
  AUTHENTICA_SMS_TEMPLATE_ID := lit "31";
  AUTHENTICA_WHATSAPP_TEMPLATE_ID := lit "42";
  FALLBACK_EMAIL := lit "noreply@yourdomain.com";
  HOOK_SECRET := None;
  SMS_COUNTRY_CODES := lit "+966"
|}.

(** A secret that holds the known prefix, but not at its start. *)
Definition oddSecret : Config := {|
  AUTHENTICA_API_KEY := Some (lit "test-api-key");
  AUTHENTICA_SMS_TEMPLATE_ID := lit "31";
  AUTHENTICA_WHATSAPP_TEMPLATE_ID := lit "42";
  FALLBACK_EMAIL := lit "noreply@yourdomain.com";
  HOOK_SECRET := Some (lit "abcv1,whsec_def");
  SMS_COUNTRY_CODES := lit "+966"
|}.

Definition field (name : string) (value : JsString) : JsString :=
  quoted (lit name) ++ lit ":" ++ value.

(** [{}], an event with a phone and an empty OTP, a complete event, and a
    body that is no JSON. *)
Definition emptyPayload : JsString := lit "{}".
Definition emptyEvent : JsValue := JObject [].

Definition object (fields : JsString) : JsString :=
  lit "{" ++ fields ++ lit "}".

Definition noOtpPayload : JsString :=
  object
    (field "user" (object (field "phone" (quoted (lit "966512345678"))))
     ++ lit ","
     ++ field "sms" (object (field "otp" (quoted [])))).
Definition noOtpEvent : JsValue :=
  JObject [(lit "user", JObject [(lit "phone", JStr (lit "966512345678"))]);
           (lit "sms", JObject [(lit "otp", JStr [])])].

Definition fullPayload : JsString :=
  object
    (field "user" (object (field "new_phone" (quoted (lit "+14155550123"))))
     ++ lit ","
     ++ field "sms" (object (field "otp" (quoted (lit "123456"))))).
Definition fullEvent : JsValue :=
  JObject [(lit "user", JObject [(lit "new_phone", JStr (lit "+14155550123"))]);
           (lit "sms", JObject [(lit "otp", JStr (lit "123456"))])].

Definition badPayload : JsString := lit "<html>".

Definition providerReply : JsString :=
  object (field "message" (quoted (lit "invalid template"))).

Definition syntaxError : JsError := {|
  errName := lit "SyntaxError";
  errMessage := lit "Unexpected token '<'"
|}.

Definition verificationError : JsError := {|
  errName := lit "WebhookVerificationError";
  errMessage := lit "No matching signature found"
|}.

(** [JSON.parse] on the strings above. *)
Definition parse (s : JsString) : Completion JsValue :=
  if JsStr.eqb s emptyPayload then Normal emptyEvent
  else if JsStr.eqb s noOtpPayload then Normal noOtpEvent
  else if JsStr.eqb s fullPayload then Normal fullEvent
  else if JsStr.eqb s providerReply then
    Normal (JObject [(lit "message", JStr (lit "invalid template"))])
  else Abrupt syntaxError.

Definition templateNumber (s : JsString) : spec_float :=
  if JsStr.eqb s (lit "31") then S754_finite false 31 0
  else if JsStr.eqb s (lit "42") then S754_finite false 42 0
  else S754_nan.

Definition request (payload : JsString) : Request := {|
  method := lit "POST";
  headers := [(lit "content-type", lit "application/json")];
  body := Normal payload
|}.

(** A runtime in which verification fails and the provider answers 422. *)
Definition rejecting : Runtime := {|
  JSON_parse := parse;
  parseInt := templateNumber;
  Webhook_verify := fun _ _ _ => Abrupt verificationError;
  fetch := fun _ => Normal {| status := 422; text := Normal providerReply |}
|}.

(** A runtime in which verification succeeds, the verifier returning the
    parsed payload, and the provider accepts. *)
Definition verifying : Runtime := {|
  JSON_parse := parse;
  parseInt := templateNumber;
  Webhook_verify := fun _ payload _ => parse payload;
  fetch := fun _ => Normal {| status := 200; text := Normal (lit "OK") |}
|}.

(** A runtime whose verifier answers with the secret it was built with. *)
Definition echoing : Runtime := {|
  JSON_parse := parse;
  parseInt := templateNumber;
  Webhook_verify := fun secret _ _ => Normal (JStr secret);
  fetch := fun _ => Normal {| status := 200; text := Normal (lit "OK") |}
|}.

End Sample.

(** ** The handler's responses and the delivery result, by name *)

Definition methodNotAllowed : Response :=
  jsonResponse 405
    (failure (lit "method_not_allowed") (lit "Only POST method is allowed")).

Definition missingPhone : Response :=
  jsonResponse 400
    (failure (lit "invalid_payload") (lit "Missing phone number")).

Definition missingOtp : Response :=
  jsonResponse 400 (failure (lit "invalid_payload") (lit "Missing OTP")).

(** Lines 286-312: the response to a delivery result. *)
Definition responseOf (result : SendResult) : Response :=
  if negb (success result) then
    jsonResponse 500
      (failure (lit "sms_send_failure")
         (orElse (error result) (lit "Failed to send SMS")))
  else jsonResponse 200 (JObject [(lit "success", JBool true)]).

(** Lines 130-167: the result [sendSMS] builds from what the provider does
    with a request. *)
Definition deliveryResult (rt : Runtime) (request : FetchRequest)
  : SendResult :=
  match fetch rt request with
  | Abrupt _ => failedToSend
  | Normal response =>
      match text response with
      | Abrupt _ => failedToSend
      | Normal responseText =>
          let data := match JSON_parse rt responseText with
                      | Normal parsed => parsed
                      | Abrupt _ => JStr responseText
                      end in
          if ok response then
            {| success := true; error := None; data := Some data |}
          else
            {| success := false;
               error := Some (lit "Authentica API error: "
                              ++ ofN (status response));
               data := Some data |}
      end
  end.

(** Line 277-280: the phone with its [+]. *)
Definition formatted (phone : JsString) : JsString :=
  if negb (startsWith phone (lit "+")) then lit "+" ++ phone else phone.

(** ** Further requests, environments and runtimes *)

Module Scenario.

(** An event whose phone is a JSON number. *)
Definition numericPayload : JsString :=
  Sample.object
    (Sample.field "user"
       (Sample.object (Sample.field "phone" (lit "966512345678")))
     ++ lit ","
     ++ Sample.field "sms"
          (Sample.object (Sample.field "otp" (Sample.quoted (lit "123456"))))).

Definition numericEvent : JsValue :=
  JObject
    [(lit "user",
      JObject [(lit "phone",
                JNumber (S754_finite false (966512345678 * 8192) (-13)))]);
     (lit "sms", JObject [(lit "otp", JStr (lit "123456"))])].

(** An event with a Saudi number without its [+]. *)
Definition saudiPayload : JsString :=
  Sample.object
    (Sample.field "user"
       (Sample.object
          (Sample.field "phone" (Sample.quoted (lit "966512345678"))))
     ++ lit ","
     ++ Sample.field "sms"
          (Sample.object (Sample.field "otp" (Sample.quoted (lit "123456"))))).

Definition saudiEvent : JsValue :=
  JObject [(lit "user", JObject [(lit "phone", JStr (lit "966512345678"))]);
           (lit "sms", JObject [(lit "otp", JStr (lit "123456"))])].

Definition parse (s : JsString) : Completion JsValue :=
  if JsStr.eqb s numericPayload then Normal numericEvent
  else if JsStr.eqb s saudiPayload then Normal saudiEvent
  else Sample.parse s.

(** A runtime in which verification fails and the provider accepts. *)
Definition accepting : Runtime := {|
  JSON_parse := parse;
  parseInt := Sample.templateNumber;
  Webhook_verify := fun _ _ _ => Abrupt Sample.verificationError;
  fetch := fun _ => Normal {| status := 200; text := Normal (lit "OK") |}
|}.

(** A runtime whose verifier succeeds with an event of its own while the raw
    body is no JSON. *)
Definition trusting : Runtime := {|
  JSON_parse := Sample.parse;
  parseInt := Sample.templateNumber;
  Webhook_verify := fun _ _ _ => Normal saudiEvent;
  fetch := fun _ => Normal {| status := 200; text := Normal (lit "OK") |}
|}.

(** An allow-list written with a hyphen, one that is blank, and two that
    list the same codes differently. *)
Definition hyphenated : Config := {|
  AUTHENTICA_API_KEY := Some (lit "test-api-key");
  AUTHENTICA_SMS_TEMPLATE_ID := lit "31";
  AUTHENTICA_WHATSAPP_TEMPLATE_ID := lit "42";
  FALLBACK_EMAIL := lit "noreply@yourdomain.com";
  HOOK_SECRET := None;
  SMS_COUNTRY_CODES := lit "+1-684"
|}.

Definition blank : Config := {|
  AUTHENTICA_API_KEY := Some (lit "test-api-key");
  AUTHENTICA_SMS_TEMPLATE_ID := lit "31";
  AUTHENTICA_WHATSAPP_TEMPLATE_ID := lit "42";
  FALLBACK_EMAIL := lit "noreply@yourdomain.com";
  HOOK_SECRET := None;
  SMS_COUNTRY_CODES := lit " , ,"
|}.

Definition gulf : Config := {|
  AUTHENTICA_API_KEY := Some (lit "test-api-key");
  AUTHENTICA_SMS_TEMPLATE_ID := lit "31";
  AUTHENTICA_WHATSAPP_TEMPLATE_ID := lit "42";
  FALLBACK_EMAIL := lit "noreply@yourdomain.com";
  HOOK_SECRET := None;
  SMS_COUNTRY_CODES := lit "+966,+971"
|}.

Definition gulfReordered : Config := {|
  AUTHENTICA_API_KEY := None;
  AUTHENTICA_SMS_TEMPLATE_ID := lit "9";
  AUTHENTICA_WHATSAPP_TEMPLATE_ID := lit "42";
  FALLBACK_EMAIL := lit "ops@example.com";
  HOOK_SECRET := None;
  SMS_COUNTRY_CODES := lit "971 , +966,971"
|}.

(** An environment that sets the API key and the WhatsApp template only. *)
Definition environment : Env :=
  fun name =>
    if JsStr.eqb name (lit "AUTHENTICA_API_KEY") then Some (lit "test-api-key")
    else if JsStr.eqb name (lit "AUTHENTICA_WHATSAPP_TEMPLATE_ID")
         then Some (lit "42")
    else None.

End Scenario.

(** ** Strings: prefixes, trimming, splitting *)

Section StringFacts.

Import Spec.

Lemma startsWith_IsPrefix (search s : JsString) :
  startsWith s search = true <-> IsPrefix search s.
Proof.
  revert s. induction search as [|p search IH]; intros s; simpl.
  - split; [intros _; exists s; reflexivity | reflexivity].
  - destruct s as [|c s].
    + split; [discriminate | intros [rest H]; discriminate].
    + rewrite andb_true_iff, N.eqb_eq, IH. split.
      * intros [-> [rest ->]]. exists rest. reflexivity.
      * intros [rest H]. simpl in H. injection H as -> ->.
        split; [reflexivity | exists rest; reflexivity].
Qed.

Lemma startsWith_refl (s : JsString) : startsWith s s = true.
Proof. apply startsWith_IsPrefix. exists []. symmetry. apply app_nil_r. Qed.

Lemma trimStart_blank_app (l s : JsString) :
  Blank l -> trimStart (l ++ s) = trimStart s.
Proof.
  induction 1 as [|c l Hc _ IH]; simpl; [reflexivity|].
  rewrite Hc. exact IH.
Qed.

Lemma trimStart_blank (l : JsString) : Blank l -> trimStart l = [].
Proof.
  intros H. rewrite <- (app_nil_r l). now rewrite trimStart_blank_app.
Qed.

Lemma trimStart_split (s : JsString) :
  exists l, Blank l /\ s = l ++ trimStart s.
Proof.
  induction s as [|c s [l [Hl Hs]]]; simpl.
  - exists []. split; [constructor | reflexivity].
  - destruct (isWhiteSpace c) eqn:Hc.
    + exists (c :: l). split; [constructor; assumption|].
      simpl. now rewrite <- Hs.
    + exists []. split; [constructor | reflexivity].
Qed.

Lemma trimStart_head (s : JsString) c t' :
  trimStart s = c :: t' -> isWhiteSpace c = false.
Proof.
  induction s as [|d s IH]; simpl; [discriminate|].
  destruct (isWhiteSpace d) eqn:Hd; [exact IH|].
  intros H. injection H as <- _. exact Hd.
Qed.

Lemma Blank_rev (l : JsString) : Blank l -> Blank (rev l).
Proof. apply Forall_rev. Qed.

Lemma trimEnd_split (s : JsString) :
  exists r, Blank r /\ s = trimEnd s ++ r.
Proof.
  destruct (trimStart_split (rev s)) as [l [Hl Hs]].
  exists (rev l). split; [now apply Blank_rev|].
  unfold trimEnd. rewrite <- rev_app_distr, <- Hs. symmetry. apply rev_involutive.
Qed.

Lemma trimEnd_last (s : JsString) c t' :
  trimEnd s = t' ++ [c] -> isWhiteSpace c = false.
Proof.
  unfold trimEnd. intros H.
  apply (f_equal (@rev _)) in H.
  rewrite rev_involutive, rev_app_distr in H. simpl in H.
  eapply trimStart_head; exact H.
Qed.

Lemma trim_TrimOf (s : JsString) : TrimOf s (trim s).
Proof.
  destruct (trimStart_split s) as [l [Hl Hs]].
  destruct (trimEnd_split (trimStart s)) as [r [Hr Ht]].
  fold (trim s) in Ht.
  assert (E : s = l ++ trim s ++ r) by (rewrite <- Ht; exact Hs).
  rewrite E at 1. constructor; try assumption. split.
  - intros c t' H. rewrite H in Ht. simpl in Ht.
    eapply trimStart_head; exact Ht.
  - intros c t' H. eapply trimEnd_last; exact H.
Qed.

Lemma TrimOf_trim (s t : JsString) : TrimOf s t -> t = trim s.
Proof.
  intros [l t' r Hl Hr [Hfirst Hlast]]. unfold trim.
  rewrite trimStart_blank_app by assumption.
  destruct t' as [|c t''].
  - simpl. rewrite trimStart_blank by assumption. reflexivity.
  - simpl. rewrite (Hfirst c t'' eq_refl).
    change (c :: t'' ++ r) with ((c :: t'') ++ r).
    unfold trimEnd. rewrite rev_app_distr.
    rewrite trimStart_blank_app by now apply Blank_rev.
    destruct (exists_last (l := c :: t'')) as [t0 [d E]]; [discriminate|].
    rewrite E, rev_app_distr. simpl.
    rewrite (Hlast d t0 E). simpl.
    now rewrite rev_involutive.
Qed.

Lemma split_not_nil (sep : CodeUnit) (s : JsString) : split sep s <> [].
Proof.
  induction s as [|c s IH]; simpl; [discriminate|].
  destruct (N.eqb c sep); [discriminate|].
  destruct (split sep s); [contradiction | discriminate].
Qed.

Lemma join_split (sep : CodeUnit) (s : JsString) :
  join sep (split sep s) = s.
Proof.
  induction s as [|c s IH]; simpl; [reflexivity|].
  destruct (N.eqb_spec c sep) as [->|Hc].
  - pose proof (split_not_nil sep s) as Hne.
    destruct (split sep s) as [|p ps]; [contradiction|].
    simpl in *. now rewrite IH.
  - pose proof (split_not_nil sep s) as Hne.
    destruct (split sep s) as [|p ps]; [contradiction|].
    destruct ps as [|q ps]; simpl in *; now rewrite IH.
Qed.

Lemma split_sep_free (sep : CodeUnit) (s : JsString) :
  Forall (fun e => ~ In sep e) (split sep s).
Proof.
  induction s as [|c s IH]; simpl.
  - constructor; [intros [] | constructor].
  - destruct (N.eqb_spec c sep) as [->|Hc].
    + constructor; [intros [] | exact IH].
    + destruct (split sep s) as [|p ps].
      * constructor; [|constructor]. intros [H|[]]. now apply Hc.
      * inversion IH as [|? ? Hp Hps]; subst.
        constructor; [|exact Hps]. intros [H|H]; [now apply Hc | now apply Hp].
Qed.

Lemma split_piece (sep : CodeUnit) (e : JsString) :
  ~ In sep e -> split sep e = [e].
Proof.
  induction e as [|c e IH]; simpl; intros H; [reflexivity|].
  destruct (N.eqb_spec c sep) as [->|Hc]; [exfalso; apply H; now left|].
  rewrite IH by (intros H'; apply H; now right). reflexivity.
Qed.

Lemma split_piece_sep (sep : CodeUnit) (e rest : JsString) :
  ~ In sep e -> split sep (e ++ sep :: rest) = e :: split sep rest.
Proof.
  induction e as [|c e IH]; simpl; intros H.
  - now rewrite N.eqb_refl.
  - destruct (N.eqb_spec c sep) as [->|Hc]; [exfalso; apply H; now left|].
    rewrite IH by (intros H'; apply H; now right). reflexivity.
Qed.

Lemma split_join (sep : CodeUnit) (parts : list JsString) :
  parts <> [] -> Forall (fun e => ~ In sep e) parts ->
  split sep (join sep parts) = parts.
Proof.
  induction parts as [|p ps IH]; intros Hne Hfree; [contradiction|].
  inversion Hfree as [|? ? Hp Hps]; subst.
  destruct ps as [|q ps].
  - simpl. now apply split_piece.
  - change (join sep (p :: q :: ps)) with (p ++ sep :: join sep (q :: ps)).
    rewrite split_piece_sep by assumption.
    rewrite IH by (assumption || discriminate). reflexivity.
Qed.

Lemma EntriesOf_split (s : JsString) (entries : list JsString) :
  EntriesOf s entries <-> entries = split COMMA s.
Proof.
  split.
  - intros [Hne [Hfree <-]]. symmetry. now apply split_join.
  - intros ->. repeat split.
    + apply split_not_nil.
    + apply split_sep_free.
    + apply join_split.
Qed.

Lemma Forall2_TrimOf_map (entries trimmed : list JsString) :
  Forall2 TrimOf entries trimmed <-> trimmed = List.map trim entries.
Proof.
  split.
  - induction 1 as [|e t es ts He _ IH]; simpl; [reflexivity|].
    now rewrite (TrimOf_trim _ _ He), IH.
  - intros ->. induction entries; simpl; constructor; auto using trim_TrimOf.
Qed.

Lemma withPlus_startsWith (t : JsString) :
  (if startsWith t (lit "+") then t else lit "+" ++ t) = withPlus t.
Proof.
  destruct t as [|c t]; [reflexivity|].
  change (lit "+") with [PLUS]. simpl.
  rewrite andb_true_r. reflexivity.
Qed.

Lemma replaceClassAll_filter (class : CodeUnit -> bool) (s : JsString) :
  replaceClassAll class [] s = filter (fun c => negb (class c)) s.
Proof.
  induction s as [|c s IH]; simpl; [reflexivity|].
  destruct (class c); simpl; now rewrite IH.
Qed.

End StringFacts.

(** ** The channel router *)

Section Router.

Import Spec.

(** The defaults of lines 28-38: the SMS template id and the fallback email
    are never empty once loaded. *)
Lemma orElse_nonEmpty (x : option JsString) (fallback : JsString) :
  nonEmpty fallback = true -> nonEmpty (orElse x fallback) = true.
Proof. destruct x as [[|c s]|]; simpl; auto. Qed.

Lemma loadConfig_defaults (env : Env) :
  nonEmpty (AUTHENTICA_SMS_TEMPLATE_ID (loadConfig env)) = true /\
  nonEmpty (FALLBACK_EMAIL (loadConfig env)) = true.
Proof.
  split; cbn [loadConfig AUTHENTICA_SMS_TEMPLATE_ID FALLBACK_EMAIL];
    repeat apply orElse_nonEmpty; reflexivity.
Qed.

Lemma AllowListOf_getSmsCountryCodes (cfg : Config) (allow : list JsString) :
  AllowListOf (SMS_COUNTRY_CODES cfg) allow <-> allow = getSmsCountryCodes cfg.
Proof.
  assert (E : forall entries,
             filter (fun p => negb (List.length p <=? 1)%nat)
               (List.map withPlus (List.map trim entries))
             = filter (fun code => (1 <? List.length code)%nat)
                 (List.map (fun code => if startsWith code (lit "+") then code
                                        else lit "+" ++ code)
                    (List.map (fun code => trim code) entries))).
  { intros entries.
    rewrite (map_ext _ _ withPlus_startsWith).
    apply filter_ext. intros p.
    destruct (Nat.leb_spec (List.length p) 1), (Nat.ltb_spec 1 (List.length p));
      simpl; (reflexivity || lia). }
  unfold AllowListOf, getSmsCountryCodes. split.
  - intros (entries & trimmed & He & Ht & ->).
    apply EntriesOf_split in He. apply Forall2_TrimOf_map in Ht. subst.
    apply E.
  - intros ->. exists (split COMMA (SMS_COUNTRY_CODES cfg)).
    exists (List.map trim (split COMMA (SMS_COUNTRY_CODES cfg))).
    split; [now apply EntriesOf_split|].
    split; [now apply Forall2_TrimOf_map|].
    symmetry. apply E.
Qed.

Lemma normalized_normalPhone (phone : JsString) :
  (let normalized := replaceClassAll isSpaceOrDash [] phone in
   if negb (startsWith normalized (lit "+")) then lit "+" ++ normalized
   else normalized) = normalPhone phone.
Proof.
  cbv zeta. unfold normalPhone.
  rewrite replaceClassAll_filter, <- withPlus_startsWith.
  rewrite (filter_ext (fun c => negb (isSpaceOrDash c))
             (fun c => negb (isWhiteSpace c) && negb (c =? HYPHEN)%N))
    by (intros c; unfold isSpaceOrDash; apply negb_orb).
  now destruct (startsWith _ _).
Qed.

Lemma shouldUseSMS_eq (cfg : Config) (phone : JsString) :
  shouldUseSMS cfg phone =
  match AUTHENTICA_WHATSAPP_TEMPLATE_ID cfg, getSmsCountryCodes cfg with
  | [], _ => true
  | _ :: _, [] => true
  | _ :: _, codes =>
      existsb (fun code => startsWith (normalPhone phone) code) codes
  end.
Proof.
  unfold shouldUseSMS.
  destruct (AUTHENTICA_WHATSAPP_TEMPLATE_ID cfg); cbn [nonEmpty negb];
    [reflexivity|].
  destruct (getSmsCountryCodes cfg) eqn:E; [reflexivity|].
  cbv zeta. cbn [List.length Nat.eqb].
  pose proof (normalized_normalPhone phone) as N. cbv zeta in N.
  now rewrite N.
Qed.

(** C1. For every configuration and phone, the channel [shouldUseSMS]
    chooses is the one the routing algorithm prescribes, and no other: SMS
    when the WhatsApp template id is empty; otherwise, with the allow-list
    obtained from the comma-separated prefix string by trimming each entry,
    prepending [+] when absent and dropping entries of length at most one, SMS
    when that list is empty, and else SMS exactly when the phone, with all
    white space and hyphens removed and a leading [+] ensured, starts with a
    prefix of the list, the alternate (WhatsApp) channel when it does not. *)
Theorem shouldUseSMS_follows_routing (cfg : Config) (phone : JsString)
    (channel : DeliveryChannel) :
  Routing cfg phone channel <-> channelOf (shouldUseSMS cfg phone) = channel.
Proof.
  rewrite shouldUseSMS_eq.
  destruct (AUTHENTICA_WHATSAPP_TEMPLATE_ID cfg) as [|t ts] eqn:Ewa.
  - split.
    + intros R. inversion R; subst; try contradiction; try reflexivity;
        now match goal with H : [] <> [] |- _ => elim H end.
    + intros <-. now apply Route_unconfigured.
  - assert (Hwa : AUTHENTICA_WHATSAPP_TEMPLATE_ID cfg <> [])
      by (rewrite Ewa; discriminate).
    pose proof (proj2 (AllowListOf_getSmsCountryCodes cfg _) eq_refl) as Hallow.
    destruct (getSmsCountryCodes cfg) as [|code codes] eqn:Ecodes.
    + split.
      * intros R. inversion R as [Hu|allow ? Ha ?|allow prefix ? Ha Hin ?|allow ? Ha Hne ?];
          subst; try reflexivity.
        apply AllowListOf_getSmsCountryCodes in Ha. rewrite Ecodes in Ha.
        now elim Hne.
      * intros <-. now apply Route_everyone with (allow := []).
    + set (allow := code :: codes) in *.
      destruct (existsb (fun c => startsWith (normalPhone phone) c) allow)
        eqn:Ematch.
      * split.
        -- intros R. inversion R as [Hu|a ? Ha ?|a prefix ? Ha Hin ?|a ? Ha Hne Hno];
             subst; try reflexivity.
           apply AllowListOf_getSmsCountryCodes in Ha. rewrite Ecodes in Ha.
           subst a. apply existsb_exists in Ematch as [prefix [Hin Hp]].
           apply startsWith_IsPrefix in Hp. now elim (Hno prefix Hin).
        -- intros <-. apply existsb_exists in Ematch as [prefix [Hin Hp]].
           apply Route_listed with (allow := allow) (prefix := prefix);
             try assumption.
           now apply startsWith_IsPrefix.
      * split.
        -- intros R. inversion R as [Hu|a ? Ha Hnil|a prefix ? Ha Hin Hp|a ? Ha Hne Hno];
             subst; try reflexivity.
           ++ rewrite Ewa in Hu. discriminate.
           ++ apply AllowListOf_getSmsCountryCodes in Ha. rewrite Ecodes in Ha.
              discriminate.
           ++ apply AllowListOf_getSmsCountryCodes in Ha. rewrite Ecodes in Ha.
              subst a. apply startsWith_IsPrefix in Hp.
              assert (existsb (fun c => startsWith (normalPhone phone) c) allow
                      = true) as Ht
                by (apply existsb_exists; exists prefix; split; assumption).
              rewrite Ht in Ematch. discriminate.
        -- intros <-. apply Route_unlisted with (allow := allow);
             try assumption; [discriminate|].
           intros prefix Hin Hp. apply startsWith_IsPrefix in Hp.
           assert (existsb (fun c => startsWith (normalPhone phone) c) allow
                   = true) as Ht
             by (apply existsb_exists; exists prefix; split; assumption).
           rewrite Ht in Ematch. discriminate.
Qed.

Lemma filter_twice {A} (f : A -> bool) (l : list A) :
  filter f (filter f l) = filter f l.
Proof.
  induction l as [|a l IH]; simpl; [reflexivity|].
  destruct (f a) eqn:E; simpl; [rewrite E|]; now rewrite IH.
Qed.

Lemma withPlus_head (t : JsString) : exists t', withPlus t = PLUS :: t'.
Proof.
  destruct t as [|c t]; simpl; [now exists []|].
  destruct (N.eqb_spec c PLUS) as [->|_]; eauto.
Qed.

Lemma normalPhone_idempotent (phone : JsString) :
  normalPhone (normalPhone phone) = normalPhone phone.
Proof.
  unfold normalPhone.
  set (keep := fun c => negb (isWhiteSpace c) && negb (c =? HYPHEN)%N).
  set (kept := filter keep phone).
  assert (E : filter keep (withPlus kept) = withPlus kept).
  { destruct kept as [|c k] eqn:Ek; [reflexivity|].
    assert (Hk : filter keep (c :: k) = c :: k)
      by (rewrite <- Ek; apply filter_twice).
    simpl withPlus. destruct (c =? PLUS)%N; [exact Hk|].
    change (filter keep (PLUS :: c :: k)) with (PLUS :: filter keep (c :: k)).
    now rewrite Hk. }
  rewrite E. destruct (withPlus_head kept) as [t' ->].
  unfold withPlus. now rewrite N.eqb_refl.
Qed.

(** The examples of the routing table: with the allow-list [+966] and a
    WhatsApp template, a Saudi number goes by SMS and a US number does not. *)
Example saudi_number_uses_sms :
  shouldUseSMS Sample.config (lit "+966512345678") = true.
Proof. vm_compute. reflexivity. Qed.

Example us_number_uses_whatsapp :
  shouldUseSMS Sample.config (lit "+14155550123") = false.
Proof. vm_compute. reflexivity. Qed.

Example country_codes_normalized :
  getSmsCountryCodes
    {| AUTHENTICA_API_KEY := None;
       AUTHENTICA_SMS_TEMPLATE_ID := lit "31";
       AUTHENTICA_WHATSAPP_TEMPLATE_ID := lit "42";
       FALLBACK_EMAIL := [];
       HOOK_SECRET := None;
       SMS_COUNTRY_CODES := lit " +966, 971 ,,+ , 1" |}
  = [lit "+966"; lit "+971"; lit "+1"].
Proof. vm_compute. reflexivity. Qed.

(** C7. Routing is invariant under phone normalization: for every
    configuration and phone, [shouldUseSMS] gives the phone and its normalized
    form (white space and hyphens removed, a leading [+] ensured) the same
    answer; in particular [966-512-345678] is routed as [+966512345678]. *)
Theorem shouldUseSMS_normalization_invariant (cfg : Config) (phone : JsString) :
  shouldUseSMS cfg phone = shouldUseSMS cfg (normalPhone phone) /\
  shouldUseSMS cfg (lit "966-512-345678")
  = shouldUseSMS cfg (lit "+966512345678").
Proof.
  rewrite !shouldUseSMS_eq. split.
  - now rewrite normalPhone_idempotent.
  - assert (E : normalPhone (lit "966-512-345678")
                = normalPhone (lit "+966512345678"))
      by (vm_compute; reflexivity).
    now rewrite E.
Qed.

End Router.

(** ** The delivery client *)

Section Delivery.

Variable rt : Runtime.
Variable cfg : Config.

Lemma sendSMS_not_configured (phone : JsString) (otp : JsValue) (w : World) :
  isSet (AUTHENTICA_API_KEY cfg) = false ->
  sendSMS rt cfg phone otp w = (Normal notConfigured, w).
Proof.
  unfold sendSMS, isSet. destruct (AUTHENTICA_API_KEY cfg) as [[|c k]|];
    simpl; intros H; (discriminate || reflexivity).
Qed.

Lemma sendSMS_configured (apiKey phone : JsString) (otp : JsValue) (w : World) :
  AUTHENTICA_API_KEY cfg = Some apiKey -> apiKey <> [] ->
  sendSMS rt cfg phone otp w =
  (Normal
     match fetch rt (requestOf rt cfg apiKey phone otp) with
     | Abrupt _ => failedToSend
     | Normal response =>
         match text response with
         | Abrupt _ => failedToSend
         | Normal responseText =>
             let data := match JSON_parse rt responseText with
                         | Normal parsed => parsed
                         | Abrupt _ => JStr responseText
                         end in
             if ok response then
               {| success := true; error := None; data := Some data |}
             else
               {| success := false;
                  error := Some (lit "Authentica API error: "
                                 ++ ofN (status response));
                  data := Some data |}
         end
     end,
   w ++ [requestOf rt cfg apiKey phone otp]).
Proof.
  intros Hkey Hne. unfold sendSMS. rewrite Hkey.
  destruct apiKey as [|c k]; [contradiction|].
  unfold tryCatch, bind, await_fetch, complete, ret. cbv zeta.
  fold (requestOf rt cfg (c :: k) phone otp).
  destruct (fetch rt (requestOf rt cfg (c :: k) phone otp)) as [response|e];
    [|reflexivity].
  destruct (text response) as [responseText|e]; [|reflexivity].
  destruct (ok response); reflexivity.
Qed.

Lemma ok_2xx (response : FetchResponse) :
  ok response = true <-> (200 <= status response <= 299)%N.
Proof.
  unfold ok. rewrite andb_true_iff, !N.leb_le. reflexivity.
Qed.

(** C2. With the API key configured, [sendSMS] issues exactly one provider
    request and completes normally whatever the provider does. It returns
    [success:true] exactly when a response arrived, its body was read and its
    status is in 200..299. A failed [fetch] or body read gives
    [{success:false, error:"Failed to send SMS"}] with nothing of the
    exception in it. A response whose body was read gives, outside 200..299,
    [{success:false, error:"Authentica API error: <status>"}]; in both ranges
    [data] is the parsed body, or the raw text when the body is not JSON. *)
Theorem sendSMS_result_by_provider_outcome
    (apiKey phone : JsString) (otp : JsValue) (w : World)
    (Hkey : AUTHENTICA_API_KEY cfg = Some apiKey) (Hset : apiKey <> []) :
  exists result,
    sendSMS rt cfg phone otp w
    = (Normal result, w ++ [requestOf rt cfg apiKey phone otp]) /\
    (success result = true <->
     exists response responseText,
       fetch rt (requestOf rt cfg apiKey phone otp) = Normal response /\
       text response = Normal responseText /\
       (200 <= status response <= 299)%N) /\
    (forall e, fetch rt (requestOf rt cfg apiKey phone otp) = Abrupt e ->
               result = failedToSend) /\
    (forall response e,
        fetch rt (requestOf rt cfg apiKey phone otp) = Normal response ->
        text response = Abrupt e ->
        result = failedToSend) /\
    (forall response responseText,
        fetch rt (requestOf rt cfg apiKey phone otp) = Normal response ->
        text response = Normal responseText ->
        (success result = true <-> (200 <= status response <= 299)%N) /\
        ((200 <= status response <= 299)%N -> error result = None) /\
        (~ (200 <= status response <= 299)%N ->
         success result = false /\
         error result
         = Some (lit "Authentica API error: " ++ ofN (status response))) /\
        (forall parsed, JSON_parse rt responseText = Normal parsed ->
                        data result = Some parsed) /\
        (forall e, JSON_parse rt responseText = Abrupt e ->
                   data result = Some (JStr responseText))).
Proof.
  rewrite (sendSMS_configured _ _ _ _ Hkey Hset).
  eexists. split; [reflexivity|].
  destruct (fetch rt (requestOf rt cfg apiKey phone otp))
    as [response|e0] eqn:Hfetch.
  2: { split; [|split; [|split]]; try discriminate; try reflexivity.
       split; [discriminate|]. intros (r & t & H & _). discriminate. }
  destruct (text response) as [responseText|e1] eqn:Htext.
  2: { split; [|split; [|split]]; try discriminate; try reflexivity.
       - split; [discriminate|]. intros (r & t & H & Ht & _).
         injection H as <-. rewrite Htext in Ht. discriminate.
       - intros r t H Ht. injection H as <-. rewrite Htext in Ht.
         discriminate. }
  cbv zeta. pose proof (ok_2xx response) as Hok.
  assert (Hcases :
    forall r t, Normal response = Normal r -> text r = Normal t ->
                r = response /\ t = responseText).
  { intros r t H Ht. injection H as <-. rewrite Htext in Ht.
    injection Ht as <-. split; reflexivity. }
  destruct (ok response); cbn [success error data];
    (split; [|split; [|split; [|intros r t Hr Ht;
       destruct (Hcases r t Hr Ht) as [-> ->];
       split; [|split; [|split; [|split]]]]]]); try discriminate.
  - split; [|reflexivity]. intros _. exists response, responseText.
    split; [reflexivity | split; [exact Htext | apply Hok; reflexivity]].
  - intros r e Hr He. injection Hr as <-. rewrite Htext in He. discriminate.
  - split; [intros _; apply Hok; reflexivity | reflexivity].
  - reflexivity.
  - intros H. elim H. apply Hok. reflexivity.
  - intros parsed ->. reflexivity.
  - intros e ->. reflexivity.
  - split; [discriminate|]. intros (r & t & Hr & _ & H).
    injection Hr as <-. apply Hok in H. discriminate.
  - intros r e Hr He. injection Hr as <-. rewrite Htext in He. discriminate.
  - split; [discriminate | intros H; apply Hok in H; discriminate].
  - intros H. apply Hok in H. discriminate.
  - intros _. split; reflexivity.
  - intros parsed ->. reflexivity.
  - intros e ->. reflexivity.
Qed.

End Delivery.

(** A 422 from the provider: one request, a failure carrying the status. *)
Lemma sendSMS_result_witness :
  exists result,
    sendSMS Sample.rejecting Sample.config (lit "+14155550123")
      (JStr (lit "123456")) []
    = (Normal result,
       [requestOf Sample.rejecting Sample.config (lit "test-api-key")
          (lit "+14155550123") (JStr (lit "123456"))]) /\
    success result = false /\
    error result = Some (lit "Authentica API error: 422") /\
    data result
    = Some (JObject [(lit "message", JStr (lit "invalid template"))]).
Proof.
  destruct (sendSMS_result_by_provider_outcome Sample.rejecting Sample.config
              (lit "test-api-key") (lit "+14155550123")
              (JStr (lit "123456")) [] eq_refl)
    as [result [Hrun [_ [_ [_ Hresp]]]]].
  - discriminate.
  - exists result.
    destruct (Hresp {| status := 422; text := Normal Sample.providerReply |}
                Sample.providerReply eq_refl eq_refl)
      as [_ [_ [Herr [Hdata _]]]].
    split; [exact Hrun|].
    destruct Herr as [Hs He]; [cbn; lia|].
    split; [exact Hs|]. split; [exact He|].
    apply Hdata. vm_compute. reflexivity.
Defined.

(** ** The request handler *)

Section Handler.

Import Spec.

Variable rt : Runtime.
Variable cfg : Config.

Lemma eqb_refl (s : JsString) : JsStr.eqb s s = true.
Proof. unfold JsStr.eqb. destruct (list_eq_dec N.eq_dec s s); congruence. Qed.

Lemma MissingOrEmpty_falsy (v : JsValue) :
  MissingOrEmpty v -> toBoolean v = false.
Proof. intros [->|[->| ->]]; reflexivity. Qed.

Lemma Present_truthy (v : JsValue) : Present v -> toBoolean v = true.
Proof. intros (c & s & ->). reflexivity. Qed.

Lemma MissingOrEmpty_jsOr (a b : JsValue) :
  MissingOrEmpty a -> MissingOrEmpty b -> MissingOrEmpty (jsOr a b).
Proof.
  intros Ha Hb. unfold jsOr. now rewrite (MissingOrEmpty_falsy _ Ha).
Qed.

(** Obtaining the event never touches the world. *)
Lemma readEvent_world (req : Request) (payload : JsString) (w : World) :
  snd (readEvent rt cfg req payload w) = w.
Proof.
  unfold readEvent, tryCatch, complete.
  destruct (HOOK_SECRET cfg) as [[|c k]|]; try reflexivity.
  now destruct (Webhook_verify rt _ payload (headers req)).
Qed.

(** A POST whose body was read is handled as its event is delivered, under
    the outermost [catch]. *)
Lemma handler_POST (req : Request) (payload : JsString) (w : World) :
  method req = lit "POST" -> body req = Normal payload ->
  handler rt cfg req w
  = tryCatch (event <- readEvent rt cfg req payload ;; deliver rt cfg event)
      unexpectedFailure w.
Proof.
  intros Hm Hb. unfold handler. rewrite Hm, eqb_refl. cbn [negb].
  unfold tryCatch, bind, complete. now rewrite Hb.
Qed.

Lemma handler_event (req : Request) (payload : JsString) (event : JsValue)
    (w : World) :
  method req = lit "POST" -> body req = Normal payload ->
  readEvent rt cfg req payload w = (Normal event, w) ->
  handler rt cfg req w = tryCatch (deliver rt cfg event) unexpectedFailure w.
Proof.
  intros Hm Hb He. rewrite (handler_POST _ _ _ Hm Hb).
  unfold tryCatch, bind. now rewrite He.
Qed.

Lemma handler_no_event (req : Request) (payload : JsString) (e : JsError)
    (w : World) :
  method req = lit "POST" -> body req = Normal payload ->
  readEvent rt cfg req payload w = (Abrupt e, w) ->
  handler rt cfg req w = unexpectedFailure e w.
Proof.
  intros Hm Hb He. rewrite (handler_POST _ _ _ Hm Hb).
  unfold tryCatch, bind. now rewrite He.
Qed.

Lemma deliver_missing_phone (event : JsValue) (w : World) :
  toBoolean (eventPhone event) = false ->
  tryCatch (deliver rt cfg event) unexpectedFailure w
  = (Normal (jsonResponse 400
               (failure (lit "invalid_payload") (lit "Missing phone number"))),
     w).
Proof. intros H. unfold tryCatch, deliver. cbv zeta. now rewrite H. Qed.

Lemma deliver_missing_otp (event : JsValue) (w : World) :
  toBoolean (eventPhone event) = true ->
  toBoolean (eventOtp event) = false ->
  tryCatch (deliver rt cfg event) unexpectedFailure w
  = (Normal (jsonResponse 400
               (failure (lit "invalid_payload") (lit "Missing OTP"))),
     w).
Proof.
  intros Hp Ho. unfold tryCatch, deliver. cbv zeta. now rewrite Hp, Ho.
Qed.

Lemma deliver_sends (event : JsValue) (phone : JsString) (w : World) :
  eventPhone event = JStr phone -> phone <> [] ->
  toBoolean (eventOtp event) = true ->
  deliver rt cfg event w
  = (result <- sendSMS rt cfg
                 (if negb (startsWith phone (lit "+")) then lit "+" ++ phone
                  else phone)
                 (eventOtp event) ;;
     if negb (success result) then
       ret (jsonResponse 500
              (failure (lit "sms_send_failure")
                 (orElse (error result) (lit "Failed to send SMS"))))
     else ret (jsonResponse 200 (JObject [(lit "success", JBool true)]))) w.
Proof.
  intros Hp Hne Ho. unfold deliver. cbv zeta. rewrite Hp, Ho.
  destruct phone as [|c s]; [contradiction|]. reflexivity.
Qed.

(** C3. A POST whose event was obtained and whose extracted phone
    ([user.phone], else [user.new_phone]) is missing or empty is answered 400
    [{code:"invalid_payload", message:"Missing phone number"}]; one whose
    phone is present and whose [sms.otp] is missing or empty is answered 400
    [{code:"invalid_payload", message:"Missing OTP"}]; in both cases the log
    of provider calls is left as it was. *)
Theorem handler_rejects_missing_phone_or_otp
    (req : Request) (payload : JsString) (event : JsValue) (w : World)
    (Hmethod : method req = lit "POST")
    (Hbody : body req = Normal payload)
    (Hevent : readEvent rt cfg req payload w = (Normal event, w)) :
  (MissingOrEmpty (eventPhone event) ->
   handler rt cfg req w
   = (Normal (jsonResponse 400
                (failure (lit "invalid_payload") (lit "Missing phone number"))),
      w)) /\
  (Present (eventPhone event) -> MissingOrEmpty (eventOtp event) ->
   handler rt cfg req w
   = (Normal (jsonResponse 400
                (failure (lit "invalid_payload") (lit "Missing OTP"))),
      w)).
Proof.
  rewrite (handler_event _ _ _ _ Hmethod Hbody Hevent). split.
  - intros Hp. apply deliver_missing_phone. now apply MissingOrEmpty_falsy.
  - intros Hp Ho. apply deliver_missing_otp.
    + now apply Present_truthy.
    + now apply MissingOrEmpty_falsy.
Qed.

(** C10. Phone validation comes first: a POST whose event has [user.phone],
    [user.new_phone] and [sms.otp] all missing or empty is answered with the
    missing-phone response, which is not the missing-OTP response. *)
Theorem handler_checks_phone_before_otp
    (req : Request) (payload : JsString) (event : JsValue) (w : World)
    (Hmethod : method req = lit "POST")
    (Hbody : body req = Normal payload)
    (Hevent : readEvent rt cfg req payload w = (Normal event, w))
    (Hphone : MissingOrEmpty (optGet (optGet event (lit "user")) (lit "phone")))
    (Hnew : MissingOrEmpty
              (optGet (optGet event (lit "user")) (lit "new_phone")))
    (Hotp : MissingOrEmpty (optGet (optGet event (lit "sms")) (lit "otp"))) :
  handler rt cfg req w
  = (Normal (jsonResponse 400
               (failure (lit "invalid_payload") (lit "Missing phone number"))),
     w) /\
  handler rt cfg req w
  <> (Normal (jsonResponse 400
                (failure (lit "invalid_payload") (lit "Missing OTP"))),
      w).
Proof.
  assert (E : handler rt cfg req w
              = (Normal (jsonResponse 400
                           (failure (lit "invalid_payload")
                              (lit "Missing phone number"))), w)).
  { rewrite (handler_event _ _ _ _ Hmethod Hbody Hevent).
    apply deliver_missing_phone, MissingOrEmpty_falsy.
    now apply MissingOrEmpty_jsOr. }
  split; [exact E|]. rewrite E. intros H.
  apply (f_equal fst) in H. cbn [fst] in H.
  injection H as H. vm_compute in H. discriminate.
Qed.

(** C5. With no API key configured, [sendSMS] completes at once with
    [{success:false, error:"SMS service not configured"}] and the log of
    provider calls untouched, and a POST whose event has a phone and an OTP is
    answered 500 [{code:"sms_send_failure", message:"SMS service not
    configured"}]. *)
Theorem sendSMS_without_api_key
    (Hkey : isSet (AUTHENTICA_API_KEY cfg) = false) :
  (forall phone otp w,
      sendSMS rt cfg phone otp w = (Normal notConfigured, w)) /\
  (forall req payload event w,
      method req = lit "POST" -> body req = Normal payload ->
      readEvent rt cfg req payload w = (Normal event, w) ->
      Present (eventPhone event) -> toBoolean (eventOtp event) = true ->
      handler rt cfg req w
      = (Normal (jsonResponse 500
                   (failure (lit "sms_send_failure")
                      (lit "SMS service not configured"))),
         w)).
Proof.
  split.
  - intros phone otp w. now apply sendSMS_not_configured.
  - intros req payload event w Hm Hb He (c & s & Hp) Ho.
    rewrite (handler_event _ _ _ _ Hm Hb He).
    unfold tryCatch. rewrite (deliver_sends _ _ _ Hp) by (discriminate || exact Ho).
    unfold bind. rewrite (sendSMS_not_configured _ _ _ _ _ Hkey). reflexivity.
Qed.

Lemma readEvent_unsigned (req : Request) (payload : JsString) (w : World) :
  readEvent rt (withoutSecret cfg) req payload w = (JSON_parse rt payload, w).
Proof. reflexivity. Qed.

Lemma readEvent_verification_failed (req : Request)
    (payload hookSecret : JsString) (e : JsError) (w : World) :
  HOOK_SECRET cfg = Some hookSecret -> hookSecret <> [] ->
  Webhook_verify rt (verifierSecret hookSecret) payload (headers req)
  = Abrupt e ->
  readEvent rt cfg req payload w = (JSON_parse rt payload, w).
Proof.
  intros Hs Hne Hv. unfold readEvent. rewrite Hs.
  destruct hookSecret as [|c k]; [contradiction|].
  unfold tryCatch, complete. cbv zeta.
  fold (verifierSecret (c :: k)). now rewrite Hv.
Qed.

Lemma readEvent_verified (req : Request) (payload hookSecret : JsString)
    (verified : JsValue) (w : World) :
  HOOK_SECRET cfg = Some hookSecret -> hookSecret <> [] ->
  Webhook_verify rt (verifierSecret hookSecret) payload (headers req)
  = Normal verified ->
  readEvent rt cfg req payload w = (Normal verified, w).
Proof.
  intros Hs Hne Hv. unfold readEvent. rewrite Hs.
  destruct hookSecret as [|c k]; [contradiction|].
  unfold tryCatch, complete. cbv zeta.
  fold (verifierSecret (c :: k)). now rewrite Hv.
Qed.

(** Nothing after the event is known reads the webhook secret. *)
Lemma deliver_withoutSecret (event : JsValue) :
  deliver rt (withoutSecret cfg) event = deliver rt cfg event.
Proof. reflexivity. Qed.

Lemma handler_unsigned (req : Request) (payload : JsString) (w : World) :
  method req = lit "POST" -> body req = Normal payload ->
  handler rt (withoutSecret cfg) req w
  = match JSON_parse rt payload with
    | Normal event => tryCatch (deliver rt cfg event) unexpectedFailure w
    | Abrupt e => unexpectedFailure e w
    end.
Proof.
  intros Hm Hb. unfold handler. rewrite Hm, eqb_refl. cbn [negb].
  unfold tryCatch at 1. unfold bind, complete. rewrite Hb.
  rewrite readEvent_unsigned.
  destruct (JSON_parse rt payload) as [event|e]; [|reflexivity].
  rewrite deliver_withoutSecret. reflexivity.
Qed.

(** C4. With a webhook secret configured, verification never ends a POST
    by itself. When it fails, the raw body is parsed and the request is
    handled exactly as with verification switched off. When the body is valid
    JSON and a successful verification returns that parsed body (which is what
    the Standard Webhooks verifier returns), the request gets the downstream
    handling of the parsed event, the same whether verification succeeded or
    failed. *)
Theorem verification_never_terminates_request
    (req : Request) (payload hookSecret : JsString) (w : World)
    (Hmethod : method req = lit "POST")
    (Hbody : body req = Normal payload)
    (Hsecret : HOOK_SECRET cfg = Some hookSecret)
    (Hset : hookSecret <> []) :
  (forall e,
      Webhook_verify rt (verifierSecret hookSecret) payload (headers req)
      = Abrupt e ->
      readEvent rt cfg req payload w = (JSON_parse rt payload, w) /\
      handler rt cfg req w = handler rt (withoutSecret cfg) req w) /\
  (forall event,
      JSON_parse rt payload = Normal event ->
      (forall verified,
          Webhook_verify rt (verifierSecret hookSecret) payload (headers req)
          = Normal verified -> verified = event) ->
      handler rt cfg req w
      = tryCatch (deliver rt cfg event) unexpectedFailure w /\
      handler rt cfg req w = handler rt (withoutSecret cfg) req w).
Proof.
  split.
  - intros e Hv.
    pose proof (readEvent_verification_failed req _ _ _ w Hsecret Hset Hv) as Hr.
    split; [exact Hr|].
    rewrite (handler_unsigned _ _ w Hmethod Hbody).
    destruct (JSON_parse rt payload) as [event|e'].
    + now apply handler_event with (payload := payload).
    + now apply handler_no_event with (payload := payload).
  - intros event Hjson Hlib.
    assert (Hr : readEvent rt cfg req payload w = (Normal event, w)).
    { destruct (Webhook_verify rt (verifierSecret hookSecret) payload
                  (headers req)) as [verified|e] eqn:Hv.
      - rewrite (readEvent_verified req _ _ _ w Hsecret Hset Hv).
        now rewrite (Hlib verified eq_refl).
      - rewrite (readEvent_verification_failed req _ _ _ w Hsecret Hset Hv).
        now rewrite Hjson. }
    rewrite (handler_unsigned _ _ w Hmethod Hbody), Hjson.
    split; now apply handler_event with (payload := payload).
Qed.

(** C9. A POST whose body is not valid JSON, with no secret configured or
    after verification has failed, is answered 500 with code
    [unexpected_failure] and the parse error's message (or "Internal server
    error" should that message be empty), with a JSON body and
    [Content-Type: application/json]; the status is not 400 and no provider
    call is made. *)
Theorem invalid_json_is_unexpected_failure
    (req : Request) (payload : JsString) (e : JsError) (w : World)
    (Hmethod : method req = lit "POST")
    (Hbody : body req = Normal payload)
    (Hjson : JSON_parse rt payload = Abrupt e)
    (Hpath : isSet (HOOK_SECRET cfg) = false \/
             exists hookSecret e',
               HOOK_SECRET cfg = Some hookSecret /\
               Webhook_verify rt (verifierSecret hookSecret) payload
                 (headers req) = Abrupt e') :
  exists response,
    handler rt cfg req w = (Normal response, w) /\
    responseStatus response = 500%N /\
    responseStatus response <> 400%N /\
    responseHeaders response
    = [(lit "Content-Type", lit "application/json")] /\
    responseJson response
    = failure (lit "unexpected_failure")
        (orElse (Some (errMessage e)) (lit "Internal server error")) /\
    (errMessage e <> [] ->
     responseJson response
     = failure (lit "unexpected_failure") (errMessage e)).
Proof.
  assert (Hr : readEvent rt cfg req payload w = (Abrupt e, w)).
  { destruct (HOOK_SECRET cfg) as [[|c k]|] eqn:Hs.
    - unfold readEvent. rewrite Hs. unfold complete. now rewrite Hjson.
    - destruct Hpath as [Hoff|(hookSecret & e' & Hs' & Hv)];
        [discriminate|].
      injection Hs' as <-.
      rewrite (readEvent_verification_failed req _ _ _ w Hs ltac:(discriminate) Hv).
      now rewrite Hjson.
    - unfold readEvent. rewrite Hs. unfold complete. now rewrite Hjson. }
  rewrite (handler_no_event _ _ _ _ Hmethod Hbody Hr).
  eexists. split; [reflexivity|]. cbn [responseStatus responseHeaders
                                       responseJson jsonResponse].
  repeat split; try reflexivity.
  - discriminate.
  - intros Hne. destruct (errMessage e); [contradiction | reflexivity].
Qed.

End Handler.

(** ** The secret handed to the verifier *)

Lemma skipn_length_app {A} (p rest : list A) :
  skipn (List.length p) (p ++ rest) = rest.
Proof. induction p; simpl; auto. Qed.

(** A secret that starts with the known prefix loses it. *)
Lemma verifierSecret_leading (rest : JsString) :
  verifierSecret (lit "v1,whsec_" ++ rest) = rest.
Proof.
  unfold verifierSecret. vm_compute. reflexivity.
Qed.

Lemma verifierSecret_agrees_on_leading_prefix (secret : JsString) :
  startsWith secret (lit "v1,whsec_") = true ->
  verifierSecret secret = Spec.stripLeading (lit "v1,whsec_") secret.
Proof.
  intros H. unfold Spec.stripLeading. rewrite H.
  apply startsWith_IsPrefix in H as [rest ->].
  rewrite verifierSecret_leading. symmetry. apply skipn_length_app.
Qed.

Example supabase_secret_stripped :
  readEvent Sample.echoing Sample.config
    (Sample.request Sample.emptyPayload) Sample.emptyPayload []
  = (Normal (JStr (lit "c2VjcmV0")), []).
Proof. vm_compute. reflexivity. Qed.

(** C6. The verifier is handed the secret with the first occurrence of
    [v1,whsec_] removed wherever it stands: the secret [abcv1,whsec_def],
    which does not start with the prefix, reaches the verifier as [abcdef],
    whereas removing a leading prefix only leaves it unchanged. *)
Theorem hook_secret_prefix_removed_anywhere :
  readEvent Sample.echoing Sample.oddSecret
    (Sample.request Sample.emptyPayload) Sample.emptyPayload []
  = (Normal (JStr (lit "abcdef")), []) /\
  startsWith (lit "abcv1,whsec_def") (lit "v1,whsec_") = false /\
  Spec.stripLeading (lit "v1,whsec_") (lit "abcv1,whsec_def")
  = lit "abcv1,whsec_def".
Proof. vm_compute. repeat split; reflexivity. Qed.

(** A secret in which the known prefix occurs nowhere is handed on as is. *)
Lemma replaceFirst_absent (pattern replacement s : JsString) :
  (forall before after, s <> before ++ pattern ++ after) ->
  replaceFirst pattern replacement s = s.
Proof.
  induction s as [|c s IH]; intros Habsent.
  - simpl. destruct (startsWith [] pattern) eqn:E; [|reflexivity].
    apply startsWith_IsPrefix in E as [rest E].
    elim (Habsent [] rest). exact E.
  - simpl. destruct (startsWith (c :: s) pattern) eqn:E.
    + apply startsWith_IsPrefix in E as [rest E].
      elim (Habsent [] rest). exact E.
    + rewrite IH; [reflexivity|].
      intros before after H. apply (Habsent (c :: before) after).
      simpl. now rewrite H.
Qed.

(** ** The handler on concrete requests *)

Example get_is_method_not_allowed :
  handler Sample.rejecting Sample.config
    {| method := lit "GET"; headers := []; body := Normal Sample.fullPayload |}
    []
  = (Normal (jsonResponse 405
               (failure (lit "method_not_allowed")
                  (lit "Only POST method is allowed"))), []).
Proof. vm_compute. reflexivity. Qed.

Example provider_422_is_sms_send_failure :
  handler Sample.rejecting Sample.config (Sample.request Sample.fullPayload) []
  = (Normal (jsonResponse 500
               (failure (lit "sms_send_failure")
                  (lit "Authentica API error: 422"))),
     [requestOf Sample.rejecting Sample.config (lit "test-api-key")
        (lit "+14155550123") (JStr (lit "123456"))]).
Proof. vm_compute. reflexivity. Qed.

Example verified_event_is_delivered :
  fst (handler Sample.verifying Sample.config
         (Sample.request Sample.fullPayload) [])
  = Normal (jsonResponse 200 (JObject [(lit "success", JBool true)])).
Proof. vm_compute. reflexivity. Qed.

(** An empty event, then an event with a phone and an empty OTP. *)
Lemma handler_rejects_missing_phone_or_otp_witness :
  handler Sample.rejecting Sample.config
    (Sample.request Sample.emptyPayload) []
  = (Normal (jsonResponse 400
               (failure (lit "invalid_payload") (lit "Missing phone number"))),
     []) /\
  handler Sample.rejecting Sample.config
    (Sample.request Sample.noOtpPayload) []
  = (Normal (jsonResponse 400
               (failure (lit "invalid_payload") (lit "Missing OTP"))),
     []).
Proof.
  split.
  - apply (handler_rejects_missing_phone_or_otp Sample.rejecting Sample.config
             (Sample.request Sample.emptyPayload) Sample.emptyPayload
             Sample.emptyEvent []); try reflexivity.
    left. reflexivity.
  - apply (handler_rejects_missing_phone_or_otp Sample.rejecting Sample.config
             (Sample.request Sample.noOtpPayload) Sample.noOtpPayload
             Sample.noOtpEvent []); try reflexivity.
    + exists 57%N, (lit "66512345678"). reflexivity.
    + right. right. reflexivity.
Defined.

Lemma handler_checks_phone_before_otp_witness :
  handler Sample.rejecting Sample.config
    (Sample.request Sample.emptyPayload) []
  = (Normal (jsonResponse 400
               (failure (lit "invalid_payload") (lit "Missing phone number"))),
     []).
Proof.
  apply (handler_checks_phone_before_otp Sample.rejecting Sample.config
           (Sample.request Sample.emptyPayload) Sample.emptyPayload
           Sample.emptyEvent []); try reflexivity; left; reflexivity.
Defined.

Lemma sendSMS_without_api_key_witness :
  sendSMS Sample.rejecting Sample.keyless (lit "+14155550123")
    (JStr (lit "123456")) []
  = (Normal notConfigured, []) /\
  handler Sample.rejecting Sample.keyless
    (Sample.request Sample.fullPayload) []
  = (Normal (jsonResponse 500
               (failure (lit "sms_send_failure")
                  (lit "SMS service not configured"))),
     []).
Proof.
  destruct (sendSMS_without_api_key Sample.rejecting Sample.keyless eq_refl)
    as [Hsend Hhandler].
  split.
  - apply Hsend.
  - apply (Hhandler (Sample.request Sample.fullPayload) Sample.fullPayload
             Sample.fullEvent []); try reflexivity.
    exists 43%N, (lit "14155550123"). reflexivity.
Defined.

(** The same signed request with verification failing and succeeding. *)
Lemma verification_never_terminates_request_witness :
  handler Sample.rejecting Sample.config
    (Sample.request Sample.fullPayload) []
  = handler Sample.rejecting (withoutSecret Sample.config)
      (Sample.request Sample.fullPayload) [] /\
  handler Sample.verifying Sample.config
    (Sample.request Sample.fullPayload) []
  = tryCatch (deliver Sample.verifying Sample.config Sample.fullEvent)
      unexpectedFailure [].
Proof.
  split.
  - apply (proj1 (verification_never_terminates_request
                    Sample.rejecting Sample.config
                    (Sample.request Sample.fullPayload) Sample.fullPayload
                    (lit "v1,whsec_c2VjcmV0") [] eq_refl eq_refl eq_refl
                    ltac:(discriminate))
             Sample.verificationError eq_refl).
  - apply (proj2 (verification_never_terminates_request
                    Sample.verifying Sample.config
                    (Sample.request Sample.fullPayload) Sample.fullPayload
                    (lit "v1,whsec_c2VjcmV0") [] eq_refl eq_refl eq_refl
                    ltac:(discriminate))
             Sample.fullEvent eq_refl).
    intros verified H. vm_compute in H. now injection H as <-.
Defined.

Lemma invalid_json_is_unexpected_failure_witness :
  exists response,
    handler Sample.rejecting Sample.config
      (Sample.request Sample.badPayload) [] = (Normal response, []) /\
    responseStatus response = 500%N /\
    responseJson response
    = failure (lit "unexpected_failure") (lit "Unexpected token '<'").
Proof.
  destruct (invalid_json_is_unexpected_failure Sample.rejecting Sample.config
              (Sample.request Sample.badPayload) Sample.badPayload
              Sample.syntaxError [] eq_refl eq_refl eq_refl)
    as [response [Hrun [Hstatus [_ [_ [_ Hmessage]]]]]].
  - right. exists (lit "v1,whsec_c2VjcmV0"), Sample.verificationError.
    split; reflexivity.
  - exists response. split; [exact Hrun|]. split; [exact Hstatus|].
    apply Hmessage. discriminate.
Defined.

(** ** How the delivery client and the handler run, case by case *)

Section Runs.

Variable rt : Runtime.
Variable cfg : Config.

Lemma sendSMS_run (phone : JsString) (otp : JsValue) (w : World) :
  (isSet (AUTHENTICA_API_KEY cfg) = false /\
   sendSMS rt cfg phone otp w = (Normal notConfigured, w)) \/
  (exists apiKey,
      AUTHENTICA_API_KEY cfg = Some apiKey /\ apiKey <> [] /\
      sendSMS rt cfg phone otp w
      = (Normal (deliveryResult rt (requestOf rt cfg apiKey phone otp)),
         w ++ [requestOf rt cfg apiKey phone otp])).
Proof.
  destruct (AUTHENTICA_API_KEY cfg) as [[|c k]|] eqn:Hkey.
  - left. split; [reflexivity|].
    apply sendSMS_not_configured. now rewrite Hkey.
  - right. exists (c :: k). split; [reflexivity|]. split; [discriminate|].
    apply (sendSMS_configured rt cfg (c :: k) phone otp w Hkey).
    discriminate.
  - left. split; [reflexivity|].
    apply sendSMS_not_configured. now rewrite Hkey.
Qed.

Lemma deliveryResult_success (request : FetchRequest) :
  success (deliveryResult rt request) = true <->
  exists response responseText,
    fetch rt request = Normal response /\
    text response = Normal responseText /\
    (200 <= status response <= 299)%N.
Proof.
  unfold deliveryResult.
  destruct (fetch rt request) as [response|e].
  - destruct (text response) as [responseText|e] eqn:Htext.
    + cbv zeta. destruct (ok response) eqn:Hok; cbn [success].
      * split; [|reflexivity]. intros _. exists response, responseText.
        split; [reflexivity|]. split; [exact Htext|]. now apply ok_2xx.
      * split; [discriminate|]. intros (r & t & Hr & _ & H).
        injection Hr as <-. apply ok_2xx in H. congruence.
    + split; [discriminate|]. intros (r & t & Hr & Ht & _).
      injection Hr as <-. congruence.
  - split; [discriminate|]. intros (r & t & Hr & _). discriminate.
Qed.

(** A failed delivery always names its error. *)
Lemma deliveryResult_error (request : FetchRequest) :
  (success (deliveryResult rt request) = true ->
   error (deliveryResult rt request) = None) /\
  (success (deliveryResult rt request) = false ->
   exists c message, error (deliveryResult rt request) = Some (c :: message)).
Proof.
  unfold deliveryResult.
  destruct (fetch rt request) as [response|e].
  - destruct (text response) as [responseText|e].
    + cbv zeta. destruct (ok response); cbn [success error].
      * split; [reflexivity | discriminate].
      * split; [discriminate|]. intros _.
        remember (lit "Authentica API error: ") as prefix eqn:E.
        destruct prefix as [|c p]; [vm_compute in E; discriminate|].
        simpl app. eauto.
    + split; [discriminate|]. intros _. vm_compute. eauto.
  - split; [discriminate|]. intros _. vm_compute. eauto.
Qed.

Lemma eqb_false (a b : JsString) : a <> b -> JsStr.eqb a b = false.
Proof.
  intros H. unfold JsStr.eqb.
  destruct (list_eq_dec N.eq_dec a b); [contradiction | reflexivity].
Qed.

Lemma handler_other_method (req : Request) (w : World) :
  method req <> lit "POST" ->
  handler rt cfg req w = (Normal methodNotAllowed, w).
Proof.
  intros H. unfold handler. now rewrite (eqb_false _ _ H).
Qed.

Lemma handler_body_unread (req : Request) (e : JsError) (w : World) :
  method req = lit "POST" -> body req = Abrupt e ->
  handler rt cfg req w = unexpectedFailure e w.
Proof.
  intros Hm Hb. unfold handler. rewrite Hm, eqb_refl. cbn [negb].
  unfold tryCatch, bind, complete. now rewrite Hb.
Qed.

Lemma deliver_not_a_string (event : JsValue) (w : World) :
  toBoolean (eventPhone event) = true ->
  toBoolean (eventOtp event) = true ->
  (forall s, eventPhone event <> JStr s) ->
  tryCatch (deliver rt cfg event) unexpectedFailure w
  = unexpectedFailure notAFunction w.
Proof.
  intros Hp Ho Hs. unfold tryCatch, deliver. cbv zeta. rewrite Hp, Ho.
  cbn [negb]. unfold bind.
  destruct (eventPhone event); try reflexivity.
  now elim (Hs s).
Qed.

Lemma deliver_string (event : JsValue) (phone : JsString) (w : World) :
  eventPhone event = JStr phone -> phone <> [] ->
  toBoolean (eventOtp event) = true ->
  exists result w',
    sendSMS rt cfg (formatted phone) (eventOtp event) w = (Normal result, w') /\
    tryCatch (deliver rt cfg event) unexpectedFailure w
    = (Normal (responseOf result), w').
Proof.
  intros Hp Hne Ho. unfold tryCatch.
  rewrite (deliver_sends rt cfg event phone w Hp Hne Ho).
  fold (formatted phone). unfold bind.
  destruct (sendSMS_run (formatted phone) (eventOtp event) w)
    as [[_ Hs]|(apiKey & _ & _ & Hs)]; rewrite Hs;
    eexists; eexists; (split; [reflexivity|]);
    unfold responseOf; now destruct (negb (success _)).
Qed.

(** The five ways a request is handled. *)
Lemma handler_run (req : Request) (w : World) :
  (method req <> lit "POST" /\
   handler rt cfg req w = (Normal methodNotAllowed, w)) \/
  (exists e, handler rt cfg req w = unexpectedFailure e w) \/
  handler rt cfg req w = (Normal missingPhone, w) \/
  handler rt cfg req w = (Normal missingOtp, w) \/
  (exists event phone result w',
      eventPhone event = JStr phone /\ phone <> [] /\
      toBoolean (eventOtp event) = true /\
      sendSMS rt cfg (formatted phone) (eventOtp event) w
      = (Normal result, w') /\
      handler rt cfg req w = (Normal (responseOf result), w')).
Proof.
  destruct (list_eq_dec N.eq_dec (method req) (lit "POST")) as [Hm|Hm];
    [|left; split; [exact Hm | now apply handler_other_method]].
  right. destruct (body req) as [payload|e] eqn:Hb;
    [|left; exists e; now apply handler_body_unread].
  pose proof (readEvent_world rt cfg req payload w) as Hw.
  destruct (readEvent rt cfg req payload w) as [[event|e] w0] eqn:Hr;
    cbn [snd] in Hw; subst w0;
    [|left; exists e; now apply handler_no_event with (payload := payload)].
  rewrite (handler_event rt cfg req payload event w Hm Hb Hr).
  destruct (toBoolean (eventPhone event)) eqn:Hp;
    [|right; left; now apply deliver_missing_phone].
  destruct (toBoolean (eventOtp event)) eqn:Ho;
    [|right; right; left; now apply deliver_missing_otp].
  destruct (eventPhone event) as [| |b|x|phone|items|props] eqn:Ep;
    try (left; exists notAFunction; apply deliver_not_a_string;
         [now rewrite Ep | assumption | rewrite Ep; discriminate]).
  right. right. right.
  assert (Hne : phone <> []) by (intros ->; discriminate).
  destruct (deliver_string event phone w Ep Hne Ho) as (result & w' & Hs & Hd).
  exists event, phone, result, w'. now rewrite Ep.
Qed.

End Runs.

(** ** What every request gets *)

Section EveryRequest.

Variable rt : Runtime.
Variable cfg : Config.

Lemma responseOf_status (result : SendResult) :
  (success result = true /\ responseStatus (responseOf result) = 200%N) \/
  (success result = false /\ responseStatus (responseOf result) = 500%N).
Proof.
  unfold responseOf. destruct (success result); [left | right]; split;
    reflexivity.
Qed.

Lemma responseOf_headers (result : SendResult) :
  responseHeaders (responseOf result)
  = [(lit "Content-Type", lit "application/json")].
Proof. unfold responseOf. now destruct (success result). Qed.

Lemma world_grows (w : World) (request : FetchRequest) :
  w ++ [request] <> w.
Proof.
  intros H. apply (f_equal (@List.length _)) in H.
  rewrite length_app in H. simpl in H. lia.
Qed.

(** X1. The handler answers 405 [method_not_allowed], leaving the log of
    provider calls as it was, exactly when the method is not POST; it does so
    whatever the body and the headers are, the body not being read. *)
Theorem handler_405_iff_not_POST (req : Request) (w : World) :
  handler rt cfg req w = (Normal methodNotAllowed, w)
  <-> method req <> lit "POST".
Proof.
  split; [|apply handler_other_method].
  intros H Hm.
  destruct (handler_run rt cfg req w)
    as [[Hm' _]|[[e He]|[He|[He|(ev & p & r & w' & _ & _ & _ & _ & He)]]]];
    [contradiction| | | |]; rewrite He in H.
  - unfold unexpectedFailure, ret in H. injection H as H. discriminate.
  - injection H as H. discriminate.
  - injection H as H. discriminate.
  - injection H as H _. apply (f_equal responseStatus) in H.
    destruct (responseOf_status r) as [[_ E]|[_ E]]; rewrite E in H;
      discriminate.
Qed.

(** X2. The handler never throws: every request, whatever the runtime does,
    gets a response with [Content-Type: application/json] and a status among
    200, 400, 405 and 500. *)
Theorem handler_always_answers_json (req : Request) (w : World) :
  exists response w',
    handler rt cfg req w = (Normal response, w') /\
    responseHeaders response = [(lit "Content-Type", lit "application/json")] /\
    (responseStatus response = 200 \/ responseStatus response = 400 \/
     responseStatus response = 405 \/ responseStatus response = 500)%N.
Proof.
  destruct (handler_run rt cfg req w)
    as [[_ He]|[[e He]|[He|[He|(ev & p & r & w' & _ & _ & _ & _ & He)]]]];
    rewrite He.
  - exists methodNotAllowed, w. repeat split; auto.
  - eexists. exists w. split; [reflexivity|]. split; [reflexivity|]. auto.
  - exists missingPhone, w. repeat split; auto.
  - exists missingOtp, w. repeat split; auto.
  - exists (responseOf r), w'. split; [reflexivity|].
    split; [apply responseOf_headers|].
    destruct (responseOf_status r) as [[_ E]|[_ E]]; rewrite E; auto.
Qed.

(** X3. A request causes at most one provider call, appended to the log,
    and none at all when it is answered 400 or 405. *)
Theorem handler_calls_provider_at_most_once (req : Request) (w : World) :
  exists response w',
    handler rt cfg req w = (Normal response, w') /\
    (w' = w \/ exists request, w' = w ++ [request]) /\
    (responseStatus response = 400%N \/ responseStatus response = 405%N ->
     w' = w).
Proof.
  destruct (handler_run rt cfg req w)
    as [[_ He]|[[e He]|[He|[He|(ev & p & r & w' & _ & _ & _ & Hs & He)]]]];
    rewrite He.
  - exists methodNotAllowed, w. auto.
  - eexists. exists w. split; [reflexivity|]. auto.
  - exists missingPhone, w. auto.
  - exists missingOtp, w. auto.
  - exists (responseOf r), w'. split; [reflexivity|].
    destruct (sendSMS_run rt cfg (formatted p) (eventOtp ev) w)
      as [[_ Hs']|(apiKey & _ & _ & Hs')]; rewrite Hs' in Hs;
      injection Hs as <- <-.
    + auto.
    + split; [right; eauto|].
      destruct (responseOf_status
                  (deliveryResult rt
                     (requestOf rt cfg apiKey (formatted p) (eventOtp ev))))
        as [[_ E]|[_ E]]; rewrite E; intros [H|H]; discriminate.
Qed.

(** X4. The handler answers 200 exactly when it made a provider call whose
    response arrived with a status in 200..299 and a readable body: success is
    never reported without the provider's, and always reported with it. *)
Theorem handler_200_iff_provider_accepted (req : Request) (w : World) :
  exists response w',
    handler rt cfg req w = (Normal response, w') /\
    (responseStatus response = 200%N <->
     exists request providerResponse responseText,
       w' = w ++ [request] /\
       fetch rt request = Normal providerResponse /\
       text providerResponse = Normal responseText /\
       (200 <= status providerResponse <= 299)%N).
Proof.
  assert (Hno : forall response : Response,
             responseStatus response <> 200%N ->
             responseStatus response = 200%N <->
             exists request providerResponse responseText,
               w = w ++ [request] /\
               fetch rt request = Normal providerResponse /\
               text providerResponse = Normal responseText /\
               (200 <= status providerResponse <= 299)%N).
  { intros response Hs. split; [contradiction|].
    intros (request & _ & _ & H & _). symmetry in H.
    now apply world_grows in H. }
  destruct (handler_run rt cfg req w)
    as [[_ He]|[[e He]|[He|[He|(ev & p & r & w' & _ & _ & _ & Hs & He)]]]];
    rewrite He.
  - exists methodNotAllowed, w. split; [reflexivity|]. now apply Hno.
  - eexists. exists w. split; [reflexivity|]. now apply Hno.
  - exists missingPhone, w. split; [reflexivity|]. now apply Hno.
  - exists missingOtp, w. split; [reflexivity|]. now apply Hno.
  - exists (responseOf r), w'. split; [reflexivity|].
    destruct (sendSMS_run rt cfg (formatted p) (eventOtp ev) w)
      as [[_ Hs']|(apiKey & _ & _ & Hs')]; rewrite Hs' in Hs;
      injection Hs as <- <-.
    + now apply Hno.
    + set (request := requestOf rt cfg apiKey (formatted p) (eventOtp ev)).
      pose proof (deliveryResult_success rt request) as Hiff.
      destruct (responseOf_status (deliveryResult rt request))
        as [[Hok E]|[Hok E]]; rewrite E.
      * split; [|reflexivity]. intros _.
        destruct (proj1 Hiff Hok) as (pr & t & Hf & Ht & Hr).
        exists request, pr, t. auto.
      * split; [discriminate|].
        intros (request' & pr & t & Hw & Hf & Ht & Hr).
        apply app_inj_tail in Hw as [_ <-].
        assert (success (deliveryResult rt request) = true)
          by (apply Hiff; eauto).
        congruence.
Qed.

(** X5. Every request [sendSMS] issues is a POST to the send-otp endpoint
    carrying the API key as [X-Authorization], the phone and the OTP
    unchanged, the fallback email, and either the method [sms] with the SMS
    template or the method [whatsapp] with the WhatsApp template; the latter
    only for a phone the router does not send by SMS, and never with an empty
    WhatsApp template id. *)
Theorem sendSMS_request_shape (phone : JsString) (otp : JsValue) (w : World) :
  snd (sendSMS rt cfg phone otp w) = w \/
  exists apiKey deliveryMethod templateId,
    AUTHENTICA_API_KEY cfg = Some apiKey /\ apiKey <> [] /\
    snd (sendSMS rt cfg phone otp w)
    = w ++ [{| fetchUrl := lit "https://api.authentica.sa/api/v2/send-otp";
               fetchMethod := lit "POST";
               fetchHeaders :=
                 [(lit "Accept", lit "application/json");
                  (lit "X-Authorization", apiKey);
                  (lit "Content-Type", lit "application/json")];
               fetchBody :=
                 JObject
                   [(lit "method", JStr deliveryMethod);
                    (lit "phone", JStr phone);
                    (lit "template_id", JNumber (parseInt rt templateId));
                    (lit "fallback_email", JStr (FALLBACK_EMAIL cfg));
                    (lit "otp", otp)] |}] /\
    ((shouldUseSMS cfg phone = true /\ deliveryMethod = lit "sms" /\
      templateId = AUTHENTICA_SMS_TEMPLATE_ID cfg) \/
     (shouldUseSMS cfg phone = false /\ deliveryMethod = lit "whatsapp" /\
      templateId = AUTHENTICA_WHATSAPP_TEMPLATE_ID cfg /\
      templateId <> [])).
Proof.
  destruct (sendSMS_run rt cfg phone otp w)
    as [[_ Hs]|(apiKey & Hkey & Hne & Hs)]; rewrite Hs; cbn [snd];
    [now left|right].
  exists apiKey. unfold requestOf, otpRequest.
  destruct (shouldUseSMS cfg phone) eqn:Hsms.
  - exists (lit "sms"), (AUTHENTICA_SMS_TEMPLATE_ID cfg).
    repeat split; auto.
  - exists (lit "whatsapp"), (AUTHENTICA_WHATSAPP_TEMPLATE_ID cfg).
    repeat split; auto. right. repeat split.
    intros Hwa. unfold shouldUseSMS in Hsms. rewrite Hwa in Hsms.
    discriminate.
Qed.

(** X6. A POST whose extracted phone is truthy but not a string (a JSON
    number, [true], an object, an array) and whose OTP is present is answered
    500 [unexpected_failure] with the type error's message, and no provider
    call is made. *)
Theorem handler_non_string_phone
    (req : Request) (payload : JsString) (event : JsValue) (w : World)
    (Hmethod : method req = lit "POST")
    (Hbody : body req = Normal payload)
    (Hevent : readEvent rt cfg req payload w = (Normal event, w))
    (Hphone : toBoolean (eventPhone event) = true)
    (Hkind : forall s, eventPhone event <> JStr s)
    (Hotp : toBoolean (eventOtp event) = true) :
  handler rt cfg req w
  = (Normal (jsonResponse 500
               (failure (lit "unexpected_failure")
                  (lit "formattedPhone.startsWith is not a function"))),
     w).
Proof.
  rewrite (handler_event rt cfg req payload event w Hmethod Hbody Hevent).
  now rewrite deliver_not_a_string.
Qed.

(** X7. [sendSMS] never throws, with or without an API key, and its result
    is answered faithfully: a success carries no error and is answered 200
    [{success:true}]; a failure always carries a non-empty error, which is the
    message of the 500 [sms_send_failure] answer, so the handler's fallback
    message is never needed. *)
Theorem sendSMS_result_is_answered (phone : JsString) (otp : JsValue)
    (w : World) :
  exists result w',
    sendSMS rt cfg phone otp w = (Normal result, w') /\
    ((success result = true /\ error result = None /\
      responseOf result
      = jsonResponse 200 (JObject [(lit "success", JBool true)])) \/
     (success result = false /\
      exists c message,
        error result = Some (c :: message) /\
        responseOf result
        = jsonResponse 500
            (failure (lit "sms_send_failure") (c :: message)))).
Proof.
  assert (Hgen : forall result,
    (success result = true -> error result = None) ->
    (success result = false ->
     exists c message, error result = Some (c :: message)) ->
    (success result = true /\ error result = None /\
     responseOf result
     = jsonResponse 200 (JObject [(lit "success", JBool true)])) \/
    (success result = false /\
     exists c message,
       error result = Some (c :: message) /\
       responseOf result
       = jsonResponse 500
           (failure (lit "sms_send_failure") (c :: message)))).
  { intros result Ht Hf. unfold responseOf.
    destruct (success result); [left | right].
    - repeat split; auto.
    - split; [reflexivity|]. destruct (Hf eq_refl) as (c & m & E).
      exists c, m. split; [exact E|]. now rewrite E. }
  destruct (sendSMS_run rt cfg phone otp w)
    as [[_ Hs]|(apiKey & _ & _ & Hs)]; rewrite Hs;
    eexists; eexists; (split; [reflexivity|]); apply Hgen.
  - discriminate.
  - intros _. vm_compute. eauto.
  - apply deliveryResult_error.
  - apply deliveryResult_error.
Qed.

(** X14. With a secret configured and a verification that succeeds, the
    request is handled with the event the verifier returned; what parsing the
    raw body would give plays no part. *)
Theorem handler_uses_verified_event
    (req : Request) (payload hookSecret : JsString) (verified : JsValue)
    (w : World)
    (Hmethod : method req = lit "POST")
    (Hbody : body req = Normal payload)
    (Hsecret : HOOK_SECRET cfg = Some hookSecret)
    (Hset : hookSecret <> [])
    (Hverify : Webhook_verify rt (verifierSecret hookSecret) payload
                 (headers req) = Normal verified) :
  handler rt cfg req w = tryCatch (deliver rt cfg verified) unexpectedFailure w.
Proof.
  apply handler_event with (payload := payload); try assumption.
  now apply readEvent_verified with (hookSecret := hookSecret).
Qed.

(** X15. With no secret configured the request headers play no part: two
    requests with the same method and body get the same response and cause
    the same provider calls. *)
Theorem handler_ignores_headers_without_secret
    (req req' : Request) (w : World)
    (Hsecret : isSet (HOOK_SECRET cfg) = false)
    (Hmethod : method req = method req')
    (Hbody : body req = body req') :
  handler rt cfg req w = handler rt cfg req' w.
Proof.
  unfold handler. rewrite <- Hmethod.
  destruct (negb (JsStr.eqb (method req) (lit "POST"))); [reflexivity|].
  unfold tryCatch, bind, complete. rewrite <- Hbody.
  destruct (body req) as [payload|e]; [|reflexivity].
  unfold readEvent, isSet in *.
  destruct (HOOK_SECRET cfg) as [[|c k]|]; try discriminate; reflexivity.
Qed.

End EveryRequest.

(** ** More on the allow-list and the router *)

Section AllowList.

Import Spec.

Lemma TrimOf_elements (s t : JsString) (c : CodeUnit) :
  TrimOf s t -> In c t -> In c s.
Proof.
  intros [l t' r _ _ _] H. apply in_or_app. right. apply in_or_app. now left.
Qed.

Lemma split_elements (sep : CodeUnit) (s e : JsString) (c : CodeUnit) :
  In e (split sep s) -> In c e -> In c s.
Proof.
  revert e. induction s as [|d s IH]; simpl; intros e He Hc.
  - destruct He as [<-|[]]. exact Hc.
  - destruct (N.eqb d sep).
    + destruct He as [<-|He]; [destruct Hc | right; eauto].
    + destruct (split sep s) as [|p ps] eqn:E.
      * destruct He as [<-|[]]. destruct Hc as [<-|[]]. now left.
      * destruct He as [<-|He].
        -- destruct Hc as [<-|Hc]; [now left | right].
           apply (IH p); [now left | exact Hc].
        -- right. apply (IH e); [now right | exact Hc].
Qed.

(** Where each code of the list comes from. *)
Lemma getSmsCountryCodes_origin (cfg : Config) (code : JsString) :
  In code (getSmsCountryCodes cfg) ->
  (1 < List.length code)%nat /\
  exists entry,
    In entry (split COMMA (SMS_COUNTRY_CODES cfg)) /\
    code = withPlus (trim entry).
Proof.
  unfold getSmsCountryCodes. intros H.
  apply filter_In in H as [H Hlen]. apply Nat.ltb_lt in Hlen.
  split; [exact Hlen|].
  apply in_map_iff in H as (t & <- & H).
  apply in_map_iff in H as (entry & <- & H).
  exists entry. split; [exact H|]. apply withPlus_startsWith.
Qed.

Lemma startsWith_plus (t : JsString) :
  startsWith (withPlus t) (lit "+") = true.
Proof.
  destruct (withPlus_head t) as [t' ->]. reflexivity.
Qed.

Lemma withPlus_elements (t : JsString) (c : CodeUnit) :
  In c (withPlus t) -> c = PLUS \/ In c t.
Proof.
  destruct t as [|d t]; simpl.
  - intros [<-|[]]. now left.
  - destruct (d =? PLUS)%N; simpl; intuition auto.
Qed.

Lemma withPlus_last (t t' : JsString) (c : CodeUnit) :
  withPlus t = t' ++ [c] -> t = [] \/ exists t'', t = t'' ++ [c].
Proof.
  intros H. destruct t as [|d t]; [now left|]. right. simpl in H.
  destruct (d =? PLUS)%N; [now exists t'|].
  destruct t' as [|p t']; [destruct t; discriminate|].
  simpl in H. injection H as _ H. now exists t'.
Qed.

(** X8. Every code of the parsed allow-list starts with [+], is at least
    two code units long, holds no comma and does not end in white space. *)
Theorem getSmsCountryCodes_well_formed (cfg : Config) :
  Forall
    (fun code =>
       startsWith code (lit "+") = true /\
       (2 <= List.length code)%nat /\
       ~ In COMMA code /\
       (forall c rest, code = rest ++ [c] -> isWhiteSpace c = false))
    (getSmsCountryCodes cfg).
Proof.
  apply Forall_forall. intros code H.
  apply getSmsCountryCodes_origin in H as [Hlen (entry & He & ->)].
  pose proof (trim_TrimOf entry) as Ht.
  split; [apply startsWith_plus|]. split; [lia|]. split.
  - intros Hc. apply withPlus_elements in Hc as [Hc|Hc]; [discriminate|].
    apply (TrimOf_elements _ _ _ Ht) in Hc.
    pose proof (split_sep_free COMMA (SMS_COUNTRY_CODES cfg)) as Hfree.
    rewrite Forall_forall in Hfree. now apply (Hfree entry He).
  - intros c rest E.
    destruct (withPlus_last _ _ _ E) as [Hnil|[t'' Hlast]].
    + rewrite Hnil in E. destruct rest as [|p rest].
      * injection E as <-. reflexivity.
      * destruct rest; discriminate.
    + exact (trimEnd_last (trimStart entry) c t'' Hlast).
Qed.

Lemma normalPhone_clean (phone : JsString) (c : CodeUnit) :
  In c (normalPhone phone) -> isSpaceOrDash c = false.
Proof.
  unfold normalPhone. intros H.
  apply withPlus_elements in H as [->|H]; [reflexivity|].
  apply filter_In in H as [_ H]. unfold isSpaceOrDash.
  apply andb_true_iff in H as [H1 H2].
  apply negb_true_iff in H1, H2. now rewrite H1, H2.
Qed.

Lemma unclean_code_never_matches (phone code : JsString) (c : CodeUnit) :
  In c code -> isSpaceOrDash c = true ->
  startsWith (normalPhone phone) code = false.
Proof.
  intros Hin Hc. destruct (startsWith (normalPhone phone) code) eqn:E;
    [|reflexivity].
  apply startsWith_IsPrefix in E as [rest E].
  assert (In c (normalPhone phone))
    by (rewrite E; apply in_or_app; now left).
  apply normalPhone_clean in H. congruence.
Qed.

(** X9. An allow-list entry with white space or a hyphen inside it matches
    no phone: when the WhatsApp template is set and every code of a non-empty
    allow-list holds such a code unit, every phone goes by WhatsApp. *)
Theorem codes_with_space_or_dash_route_nothing_to_sms
    (cfg : Config) (phone : JsString)
    (Hwa : AUTHENTICA_WHATSAPP_TEMPLATE_ID cfg <> [])
    (Hcodes : getSmsCountryCodes cfg <> [])
    (Hdirty : Forall (fun code => exists c, In c code /\ isSpaceOrDash c = true)
                (getSmsCountryCodes cfg)) :
  shouldUseSMS cfg phone = false.
Proof.
  rewrite shouldUseSMS_eq.
  destruct (AUTHENTICA_WHATSAPP_TEMPLATE_ID cfg) as [|wa0 wa];
    [contradiction|].
  destruct (getSmsCountryCodes cfg) as [|code codes]; [contradiction|].
  set (allow := code :: codes) in *.
  destruct (existsb _ allow) eqn:E; [|reflexivity].
  apply existsb_exists in E as (k & Hin & Hk).
  rewrite Forall_forall in Hdirty.
  destruct (Hdirty k Hin) as (d & Hd & Hs).
  rewrite (unclean_code_never_matches phone k d Hd Hs) in Hk. discriminate.
Qed.

Lemma normalPhone_app (c : CodeUnit) (kept phone more : JsString) :
  filter (fun c => negb (isWhiteSpace c) && negb (c =? HYPHEN)%N) phone
  = c :: kept ->
  exists rest, normalPhone (phone ++ more) = normalPhone phone ++ rest.
Proof.
  intros H. unfold normalPhone. rewrite filter_app, H.
  eexists. simpl. destruct (c =? PLUS)%N; reflexivity.
Qed.

(** X10. Routing looks at the front of the phone only: a phone sent by SMS
    is still sent by SMS with anything appended to it. *)
Theorem shouldUseSMS_extends (cfg : Config) (phone more : JsString)
    (Hsms : shouldUseSMS cfg phone = true) :
  shouldUseSMS cfg (phone ++ more) = true.
Proof.
  rewrite shouldUseSMS_eq in *.
  destruct (AUTHENTICA_WHATSAPP_TEMPLATE_ID cfg) as [|wa0 wa];
    [reflexivity|].
  pose proof (getSmsCountryCodes_origin cfg) as Horigin.
  destruct (getSmsCountryCodes cfg) as [|code codes]; [reflexivity|].
  set (allow := code :: codes) in *.
  apply existsb_exists in Hsms as (k & Hin & Hk).
  apply existsb_exists. exists k. split; [exact Hin|].
  apply startsWith_IsPrefix in Hk as [tail Hk].
  apply startsWith_IsPrefix.
  destruct (filter (fun c => negb (isWhiteSpace c) && negb (c =? HYPHEN)%N)
              phone) as [|c kept] eqn:Ekept.
  - exfalso. destruct (Horigin k Hin) as [Hlen _].
    unfold normalPhone in Hk. rewrite Ekept in Hk. simpl in Hk.
    apply (f_equal (@List.length _)) in Hk. rewrite length_app in Hk.
    simpl in Hk. lia.
  - destruct (normalPhone_app c kept phone more Ekept) as [rest ->].
    exists (tail ++ rest). now rewrite Hk, <- app_assoc.
Qed.

Lemma filter_none {A} (f : A -> bool) (l : list A) :
  (forall a, In a l -> f a = false) -> filter f l = [].
Proof.
  induction l as [|a l IH]; simpl; intros H; [reflexivity|].
  rewrite (H a) by now left. apply IH. intros b Hb. apply H. now right.
Qed.

Lemma trim_blank (s : JsString) : Blank s -> trim s = [].
Proof. intros H. unfold trim. now rewrite (trimStart_blank _ H). Qed.

Lemma blank_codes_empty (cfg : Config) :
  Forall (fun c => isWhiteSpace c = true \/ c = COMMA) (SMS_COUNTRY_CODES cfg) ->
  getSmsCountryCodes cfg = [].
Proof.
  intros Hblank. unfold getSmsCountryCodes. apply filter_none.
  intros code H.
  apply in_map_iff in H as (t & <- & H).
  apply in_map_iff in H as (entry & <- & H).
  assert (Hentry : Blank entry).
  { apply Forall_forall. intros c Hc.
    rewrite Forall_forall in Hblank.
    destruct (Hblank c (split_elements _ _ _ _ H Hc)) as [Hw| ->];
      [exact Hw|].
    pose proof (split_sep_free COMMA (SMS_COUNTRY_CODES cfg)) as Hfree.
    rewrite Forall_forall in Hfree. now elim (Hfree entry H). }
  rewrite (trim_blank _ Hentry). reflexivity.
Qed.

Lemma blank_codes_sms (cfg : Config) (phone : JsString) :
  Forall (fun c => isWhiteSpace c = true \/ c = COMMA) (SMS_COUNTRY_CODES cfg) ->
  shouldUseSMS cfg phone = true.
Proof.
  intros Hblank. rewrite shouldUseSMS_eq, (blank_codes_empty cfg Hblank).
  now destruct (AUTHENTICA_WHATSAPP_TEMPLATE_ID cfg).
Qed.

(** X11. A country-code string made of nothing but white space and commas
    (the empty string included) counts as unset: the parsed allow-list is
    empty and every phone goes by SMS. *)
Theorem blank_country_codes_mean_sms_for_all (cfg : Config) (phone : JsString)
    (Hblank : Forall (fun c => isWhiteSpace c = true \/ c = COMMA)
                (SMS_COUNTRY_CODES cfg)) :
  getSmsCountryCodes cfg = [] /\ shouldUseSMS cfg phone = true.
Proof.
  split; [now apply blank_codes_empty | now apply blank_codes_sms].
Qed.

(** X12. Routing depends on the allow-list as a set: two configurations
    that agree on whether the WhatsApp template is set and whose parsed
    allow-lists hold the same codes, in whatever order and however often,
    route every phone alike. *)
Theorem shouldUseSMS_same_codes (cfg cfg' : Config) (phone : JsString)
    (Hwa : nonEmpty (AUTHENTICA_WHATSAPP_TEMPLATE_ID cfg)
           = nonEmpty (AUTHENTICA_WHATSAPP_TEMPLATE_ID cfg'))
    (Hcodes : forall code,
        In code (getSmsCountryCodes cfg) <->
        In code (getSmsCountryCodes cfg')) :
  shouldUseSMS cfg phone = shouldUseSMS cfg' phone.
Proof.
  rewrite !shouldUseSMS_eq.
  destruct (AUTHENTICA_WHATSAPP_TEMPLATE_ID cfg),
           (AUTHENTICA_WHATSAPP_TEMPLATE_ID cfg');
    try discriminate; [reflexivity|].
  assert (E : forall l l' : list JsString,
             (forall k, In k l -> In k l') ->
             existsb (fun k => startsWith (normalPhone phone) k) l = true ->
             existsb (fun k => startsWith (normalPhone phone) k) l' = true).
  { intros l l' Hsub H. apply existsb_exists in H as (k & Hin & Hk).
    apply existsb_exists. exists k. auto. }
  destruct (getSmsCountryCodes cfg) as [|k ks] eqn:E1,
           (getSmsCountryCodes cfg') as [|k' ks'] eqn:E2; try reflexivity.
  - destruct (proj2 (Hcodes k') (or_introl eq_refl)).
  - destruct (proj1 (Hcodes k) (or_introl eq_refl)).
  - apply eq_true_iff_eq. split; apply E; intros code; apply Hcodes.
Qed.

(** X13. The defaults of the loaded configuration: when the environment
    leaves the WhatsApp template id or the country codes unset or empty, every
    phone goes by SMS. *)
Theorem loadConfig_defaults_to_sms (env : Env) (phone : JsString)
    (Hunset : isSet (env (lit "AUTHENTICA_WHATSAPP_TEMPLATE_ID")) = false \/
              isSet (env (lit "SMS_COUNTRY_CODES")) = false) :
  shouldUseSMS (loadConfig env) phone = true.
Proof.
  assert (Hor : forall x, isSet x = false -> orElse x [] = []).
  { intros [[|c s]|]; simpl; (discriminate || reflexivity). }
  destruct Hunset as [H|H].
  - unfold shouldUseSMS.
    cbn [loadConfig AUTHENTICA_WHATSAPP_TEMPLATE_ID].
    now rewrite (Hor _ H).
  - apply blank_codes_sms.
    cbn [loadConfig SMS_COUNTRY_CODES]. rewrite (Hor _ H). constructor.
Qed.

End AllowList.

(** ** The handler's phone formatting and validation *)

Section Formatting.

Import Spec.

Variable rt : Runtime.
Variable cfg : Config.

Lemma formatted_plus (phone : JsString) :
  startsWith (formatted phone) (lit "+") = true.
Proof.
  unfold formatted. destruct (startsWith phone (lit "+")) eqn:E;
    [exact E | reflexivity].
Qed.

Lemma normalPhone_formatted (c : CodeUnit) (phone : JsString) :
  isSpaceOrDash c = false ->
  normalPhone (formatted (c :: phone)) = normalPhone (c :: phone).
Proof.
  intros Hc. unfold formatted. change (lit "+") with [PLUS].
  cbn [startsWith]. rewrite andb_true_r.
  destruct (c =? PLUS)%N eqn:Ec; [reflexivity|]. cbn [negb app].
  unfold normalPhone.
  set (keep := fun c => negb (isWhiteSpace c) && negb (c =? HYPHEN)%N).
  assert (Hplus : keep PLUS = true) by reflexivity.
  assert (Hkeep : keep c = true).
  { unfold keep. unfold isSpaceOrDash in Hc.
    apply orb_false_iff in Hc as [-> ->]. reflexivity. }
  cbn [filter]. rewrite Hplus, Hkeep.
  cbn [withPlus]. now rewrite N.eqb_refl, Ec.
Qed.

(** The formatting is not neutral for a phone that opens with white space
    or a hyphen before its [+]. *)
Example padded_saudi_number_is_not_recognized :
  shouldUseSMS Sample.config (lit " +966512345678") = true /\
  shouldUseSMS Sample.config (formatted (lit " +966512345678")) = false.
Proof. vm_compute. split; reflexivity. Qed.

(** X16. The [+] the handler puts in front of a phone does not change its
    routing, provided the phone does not open with white space or a hyphen:
    the router gives the formatted phone, which is what [sendSMS] routes, the
    answer it gives the phone of the event. *)
Theorem formatted_phone_routes_alike (c : CodeUnit) (phone : JsString)
    (Hopen : isSpaceOrDash c = false) :
  shouldUseSMS cfg (formatted (c :: phone)) = shouldUseSMS cfg (c :: phone).
Proof.
  rewrite !shouldUseSMS_eq. now rewrite (normalPhone_formatted c phone Hopen).
Qed.

(** X17. Whatever the request, a provider call the handler makes carries a
    phone that starts with [+] and an OTP that is truthy. *)
Theorem handler_sends_phone_with_plus (req : Request) (w : World) :
  exists response w',
    handler rt cfg req w = (Normal response, w') /\
    forall request,
      w' = w ++ [request] ->
      exists phone,
        optGet (fetchBody request) (lit "phone") = JStr phone /\
        startsWith phone (lit "+") = true /\
        toBoolean (optGet (fetchBody request) (lit "otp")) = true.
Proof.
  assert (Hno : forall request : FetchRequest,
             w = w ++ [request] ->
             exists phone,
               optGet (fetchBody request) (lit "phone") = JStr phone /\
               startsWith phone (lit "+") = true /\
               toBoolean (optGet (fetchBody request) (lit "otp")) = true).
  { intros request H. symmetry in H. now apply world_grows in H. }
  destruct (handler_run rt cfg req w)
    as [[_ He]|[[e He]|[He|[He|(ev & p & r & w' & _ & _ & Ho & Hs & He)]]]];
    rewrite He.
  - exists methodNotAllowed, w. auto.
  - eexists. exists w. split; [reflexivity | exact Hno].
  - exists missingPhone, w. auto.
  - exists missingOtp, w. auto.
  - exists (responseOf r), w'. split; [reflexivity|].
    destruct (sendSMS_run rt cfg (formatted p) (eventOtp ev) w)
      as [[_ Hs']|(apiKey & _ & _ & Hs')]; rewrite Hs' in Hs;
      injection Hs as <- <-; [exact Hno|].
    intros request Hw. apply app_inj_tail in Hw as [_ <-].
    exists (formatted p). split; [reflexivity|].
    split; [apply formatted_plus | exact Ho].
Qed.

(** X18. Once the event is obtained, the two 400 answers are given exactly
    on falsy fields: "Missing phone number" exactly when the extracted phone
    is falsy (absent, [null], empty, but also [0] or [false]), and "Missing
    OTP" exactly when the phone is truthy and the OTP falsy. *)
Theorem handler_400_iff_falsy
    (req : Request) (payload : JsString) (event : JsValue) (w : World)
    (Hmethod : method req = lit "POST")
    (Hbody : body req = Normal payload)
    (Hevent : readEvent rt cfg req payload w = (Normal event, w)) :
  (handler rt cfg req w = (Normal missingPhone, w)
   <-> toBoolean (eventPhone event) = false) /\
  (handler rt cfg req w = (Normal missingOtp, w)
   <-> toBoolean (eventPhone event) = true /\
       toBoolean (eventOtp event) = false).
Proof.
  rewrite (handler_event rt cfg req payload event w Hmethod Hbody Hevent).
  assert (Hsent : forall r w' (response : Response),
             responseStatus response = 400%N ->
             (Normal (responseOf r), w') <> (Normal response, w)).
  { intros r w' response Hs H. injection H as H _.
    apply (f_equal responseStatus) in H. rewrite Hs in H.
    destruct (responseOf_status r) as [[_ E]|[_ E]]; rewrite E in H;
      discriminate. }
  destruct (toBoolean (eventPhone event)) eqn:Hp.
  2: { rewrite (deliver_missing_phone rt cfg event w Hp). split.
       - split; reflexivity.
       - split; [|intros [H _]; discriminate].
         intros H. injection H as H. vm_compute in H. discriminate. }
  destruct (toBoolean (eventOtp event)) eqn:Ho.
  2: { rewrite (deliver_missing_otp rt cfg event w Hp Ho). split.
       - split; [|discriminate].
         intros H. injection H as H. vm_compute in H. discriminate.
       - split; [split; reflexivity | reflexivity]. }
  assert (Hneither : forall response : Response,
             responseStatus response = 400%N ->
             tryCatch (deliver rt cfg event) unexpectedFailure w
             <> (Normal response, w)).
  { intros response Hs.
    destruct (eventPhone event) as [| |b|x|phone|items|props] eqn:Ep;
      try (rewrite deliver_not_a_string;
           [ intros H; injection H as H;
             apply (f_equal responseStatus) in H; rewrite Hs in H;
             discriminate
           | now rewrite Ep | assumption | rewrite Ep; discriminate ]).
    assert (Hne : phone <> []) by (intros ->; discriminate).
    destruct (deliver_string rt cfg event phone w Ep Hne Ho)
      as (r & w' & _ & ->).
    now apply Hsent. }
  split; (split; [intros H; now apply Hneither in H|]).
  - discriminate.
  - intros [_ H]. discriminate.
Qed.

End Formatting.

(** ** The further properties on concrete inputs *)

Lemma handler_non_string_phone_witness :
  handler Scenario.accepting Sample.unsigned
    (Sample.request Scenario.numericPayload) []
  = (Normal (jsonResponse 500
               (failure (lit "unexpected_failure")
                  (lit "formattedPhone.startsWith is not a function"))),
     []).
Proof.
  apply (handler_non_string_phone Scenario.accepting Sample.unsigned
           (Sample.request Scenario.numericPayload) Scenario.numericPayload
           Scenario.numericEvent []); try reflexivity.
  intros s. vm_compute. discriminate.
Defined.

Lemma codes_with_space_or_dash_witness :
  shouldUseSMS Scenario.hyphenated (lit "+1-684-2551234") = false.
Proof.
  assert (E : getSmsCountryCodes Scenario.hyphenated = [lit "+1-684"])
    by (vm_compute; reflexivity).
  apply codes_with_space_or_dash_route_nothing_to_sms.
  - discriminate.
  - rewrite E. discriminate.
  - rewrite E. constructor; [|constructor].
    exists HYPHEN. split; [|reflexivity].
    vm_compute. do 2 right. left. reflexivity.
Defined.

Lemma shouldUseSMS_extends_witness :
  shouldUseSMS Sample.config (lit "+966" ++ lit "512345678") = true.
Proof. apply shouldUseSMS_extends. vm_compute. reflexivity. Defined.

Lemma blank_country_codes_witness :
  getSmsCountryCodes Scenario.blank = [] /\
  shouldUseSMS Scenario.blank (lit "+14155550123") = true.
Proof.
  apply blank_country_codes_mean_sms_for_all.
  vm_compute.
  repeat (constructor;
          [first [left; reflexivity | right; reflexivity]|]).
  constructor.
Defined.

Lemma shouldUseSMS_same_codes_witness :
  shouldUseSMS Scenario.gulf (lit "+971501234567")
  = shouldUseSMS Scenario.gulfReordered (lit "+971501234567").
Proof.
  apply shouldUseSMS_same_codes; [reflexivity|].
  assert (E1 : getSmsCountryCodes Scenario.gulf = [lit "+966"; lit "+971"])
    by (vm_compute; reflexivity).
  assert (E2 : getSmsCountryCodes Scenario.gulfReordered
               = [lit "+971"; lit "+966"; lit "+971"])
    by (vm_compute; reflexivity).
  intros code. rewrite E1, E2. simpl. tauto.
Defined.

Lemma loadConfig_defaults_to_sms_witness :
  shouldUseSMS (loadConfig Scenario.environment) (lit "+14155550123") = true.
Proof.
  apply loadConfig_defaults_to_sms. right. vm_compute. reflexivity.
Defined.

(** A body that is no JSON, and a verifier that vouches for an event. *)
Lemma handler_uses_verified_event_witness :
  handler Scenario.trusting Sample.config
    (Sample.request Sample.badPayload) []
  = tryCatch (deliver Scenario.trusting Sample.config Scenario.saudiEvent)
      unexpectedFailure [].
Proof.
  apply (handler_uses_verified_event Scenario.trusting Sample.config
           (Sample.request Sample.badPayload) Sample.badPayload
           (lit "v1,whsec_c2VjcmV0") Scenario.saudiEvent []);
    try reflexivity.
  discriminate.
Defined.

Lemma handler_ignores_headers_witness :
  handler Scenario.accepting Sample.unsigned
    (Sample.request Scenario.saudiPayload) []
  = handler Scenario.accepting Sample.unsigned
      {| method := lit "POST";
         headers := [(lit "webhook-signature", lit "v1,forged")];
         body := Normal Scenario.saudiPayload |} [].
Proof.
  apply handler_ignores_headers_without_secret; reflexivity.
Defined.

Lemma formatted_phone_routes_alike_witness :
  shouldUseSMS Sample.config (formatted (lit "966512345678"))
  = shouldUseSMS Sample.config (lit "966512345678").
Proof.
  apply (formatted_phone_routes_alike Sample.config 57%N
           (lit "66512345678")).
  reflexivity.
Defined.

Lemma handler_400_iff_falsy_witness :
  toBoolean (eventPhone Sample.emptyEvent) = false /\
  handler Sample.rejecting Sample.config
    (Sample.request Sample.emptyPayload) []
  = (Normal missingPhone, []).
Proof.
  split; [reflexivity|].
  apply (proj1 (handler_400_iff_falsy Sample.rejecting Sample.config
                  (Sample.request Sample.emptyPayload) Sample.emptyPayload
                  Sample.emptyEvent [] eq_refl eq_refl eq_refl)).
  reflexivity.
Defined.

(** The handler end to end: a Saudi number without its [+] goes out by SMS
    with the SMS template and is answered 200. *)
Example saudi_event_is_sent_by_sms :
  handler Scenario.accepting Sample.unsigned
    (Sample.request Scenario.saudiPayload) []
  = (Normal (jsonResponse 200 (JObject [(lit "success", JBool true)])),
     [otpRequest Scenario.accepting Sample.unsigned (lit "test-api-key")
        (lit "sms") (lit "+966512345678") (lit "31") (JStr (lit "123456"))]).
Proof. vm_compute. reflexivity. Qed.
